(** * John Snow cholera dashboard: a shallow embedding of
      [johnsnow_dashboard_app.py] and the properties of its page.

    The script is one linear pass: load two layers, read the sidebar
    controls, compose a folium map, and emit the page.  The embedding keeps
    that shape: the loader is a function of the outside world (what the
    geospatial library reads and reprojects), the page is the list of
    Streamlit calls in the order the script makes them, the map is the
    object the script builds with the children in the order of [add_to],
    and an exception that no [except] catches ends the run.

    Numbers: a Python float is a rational, an infinity or NaN.  The
    script does no arithmetic on floats itself; the one computation on
    them, the mean of a coordinate column, is the library's, and its
    binary64 result is left to the outside world.

    The libraries the script calls are not part of the repository.  Of
    their behaviour the embedding takes what the script relies on:
    - [gpd.read_file] and [to_crs] are the outside world: any layer or any
      exception;
    - [gdf.geometry.x] / [.y] give the coordinate column of a layer of
      points (NaN for a missing geometry) and raise [ValueError] otherwise;
      [Series.mean] skips NaN and is NaN when nothing is left, otherwise
      whatever its floating-point arithmetic gives;
    - [folium.Map], [folium.Marker] and [HeatMap] keep their arguments and
      refuse a NaN coordinate with [ValueError]; [folium.Map] starts with
      the tile layer as its first child and [add_to] appends a child;
      [HeatMap] also refuses a weight that is not a number ([TypeError])
      or is NaN ([ValueError]);
    - the Streamlit calls put one element each on the page, a checkbox or
      slider returns the user's setting (the default when untouched, and
      for a slider when the setting lies outside its bounds), and an
      uncaught exception stops the script. *)

From Stdlib Require Import ZArith QArith Lia.
From stdpp Require Import base option list strings gmap.

Open Scope string_scope.
Open Scope list_scope.
Open Scope Z_scope.

(* ===================================================================== *)
(** ** Python values                                                      *)
(* ===================================================================== *)

Module Py.

(** A Python float: a finite value, an infinity or NaN. *)
Inductive float :=
  | Fin (q : Q)
  | Inf (negative : bool)
  | NaN.

Definition is_nan (f : float) : bool :=
  match f with NaN => true | Fin _ | Inf _ => false end.

(** Attribute values of a row, and whatever an f-string interpolates. *)
Inductive value :=
  | VInt (z : Z)
  | VFloat (f : float)
  | VStr (s : string)
  | VBool (b : bool)
  | VNone.

(** An f-string, kept as its literal and interpolated parts ([str] of a
    number is the interpreter's business, the parts are the script's). *)
Inductive fpart :=
  | Lit (s : string)
  | Fmt (v : value).

Definition fstring := list fpart.

(** The exceptions that occur, all subclasses of [Exception]. *)
Inductive exn_class :=
  | AttributeError
  | IndexError
  | ValueError
  | TypeError
  | OSError.

Record exn := Exn { exn_type : exn_class; exn_text : string }.

(** A computation that returns or raises. *)
Abbreviation result := (sum exn).

Definition ok {A} (a : A) : result A := inr a.
Definition raise {A} (e : exn) : result A := inl e.

#[export] Instance result_ret : MRet result := fun A a => inr a.

#[export] Instance result_bind : MBind result := fun A B k r =>
  match r with
  | inl e => inl e
  | inr a => k a
  end.

End Py.

Export Py.

(* ===================================================================== *)
(** ** The data model: geometries, rows, layers                           *)
(* ===================================================================== *)

(** A geometry as the script sees it.  [row.geometry] may be missing
    ([None] in Python); otherwise it is an object that may or may not have
    the attributes [x], [y] and [coords].  [coords] is a sequence of
    coordinate tuples.  An accessor that raises when it is read (the
    [coords] of a polygon, the [x] of an empty point) is not told from a
    missing one: the script raises for such a geometry in both cases, and
    only the class of the exception differs. *)
Record shape := Shape {
  attr_x : option float;
  attr_y : option float;
  attr_coords : option (list (list float))
}.

Definition geometry := option shape.

(** One row of a layer: its geometry and its other columns. *)
Record row := Row {
  row_geometry : geometry;
  row_attrs : gmap string value
}.

(** A layer as [gpd.read_file] returns it: the coordinate reference
    system, named by its authority code as the script names the target
    (absent when the file declares none), and the rows, indexed
    0, 1, 2, ... *)
Record GeoDataFrame := Gdf {
  crs : option string;
  rows : list row
}.

(** [for idx, row in gdf.iterrows()]: the rows with their index labels. *)
Fixpoint iterrows_from (i : Z) (rs : list row) : list (Z * row) :=
  match rs with
  | [] => []
  | r :: rs' => (i, r) :: iterrows_from (i + 1) rs'
  end.

Definition iterrows (gdf : GeoDataFrame) : list (Z * row) :=
  iterrows_from 0 (rows gdf).

(* ===================================================================== *)
(** ** Geometry access (lines 78-81, 98-101, 120-123)                     *)
(* ===================================================================== *)

(** [hasattr(row.geometry, 'x') and hasattr(row.geometry, 'y')] *)
Definition has_xy (g : geometry) : bool :=
  match g with
  | Some s => bool_decide (is_Some (attr_x s)) && bool_decide (is_Some (attr_y s))
  | None => false
  end.

Definition no_attribute (name : string) : exn :=
  Exn AttributeError ("object has no attribute " +:+ name).

Definition out_of_range : exn := Exn IndexError "index out of range".

(** [row.geometry.x] and [row.geometry.y] *)
Definition get_x (g : geometry) : result float :=
  match g ≫= attr_x with
  | Some x => ok x
  | None => raise (no_attribute "x")
  end.

Definition get_y (g : geometry) : result float :=
  match g ≫= attr_y with
  | Some y => ok y
  | None => raise (no_attribute "y")
  end.

(** [row.geometry.coords] *)
Definition get_coords (g : geometry) : result (list (list float)) :=
  match g ≫= attr_coords with
  | Some cs => ok cs
  | None => raise (no_attribute "coords")
  end.

(** Python indexing [l[i]] for a non-negative literal index. *)
Definition index {A} (l : list A) (i : nat) : result A :=
  match l !! i with
  | Some a => ok a
  | None => raise out_of_range
  end.

(** [row.geometry.coords[0][j]] *)
Definition coords_0 (g : geometry) (j : nat) : result float :=
  cs ← get_coords g;
  c0 ← index cs 0;
  index c0 j.

(** The four lines every loop repeats; the result is [(lat, lon)]:
<<
    if hasattr(row.geometry, 'x') and hasattr(row.geometry, 'y'):
        lat, lon = row.geometry.y, row.geometry.x
    else:
        lat, lon = row.geometry.coords[0][1], row.geometry.coords[0][0]
>> *)
Definition lat_lon (g : geometry) : result (float * float) :=
  if has_xy g then
    lat ← get_y g;
    lon ← get_x g;
    ok (lat, lon)
  else
    lat ← coords_0 g 1;
    lon ← coords_0 g 0;
    ok (lat, lon).

(* ===================================================================== *)
(** ** The mapping library (folium)                                       *)
(* ===================================================================== *)

Module folium.

Inductive icon :=
  | DivIcon (icon_size icon_anchor : Z * Z) (html : fstring)
  | Icon (color icon_name prefix : string).

(** What [add_to(m)] can add.  A heat row is [[lat, lon, weight]]. *)
Inductive layer :=
  | HeatMap (data : list (float * float * value))
            (min_opacity max_opacity radius blur : value)
            (gradient : list (Q * string))
  | Marker (location : float * float) (popup : option fstring)
           (icon : icon) (tooltip : option fstring)
  | TileLayer (tiles : string)
  | LayerControl.

Record Map := MkMap {
  location : float * float;
  zoom_start : Z;
  tiles : string;
  width : string;
  height : Z;
  children : list layer
}.

(** The library's check of a [location=[lat, lon]] argument: it refuses a
    NaN coordinate with a [ValueError]. *)
Definition validate_location (loc : float * float) : result (float * float) :=
  if is_nan loc.1 || is_nan loc.2
  then raise (Exn ValueError "Location values cannot contain NaNs.")
  else ok loc.

(** [folium.Map(location=..., zoom_start=..., tiles=..., width=..., height=...)]:
    the new map has one child already, the layer of its tiles. *)
Definition new_Map (loc : float * float) (zoom : Z) (tiles width : string)
    (height : Z) : result Map :=
  loc' ← validate_location loc;
  ok (MkMap loc' zoom tiles width height [TileLayer tiles]).

(** [folium.Marker(location=..., popup=..., icon=..., tooltip=...)] *)
Definition new_Marker (loc : float * float) (popup : option fstring)
    (ic : icon) (tooltip : option fstring) : result layer :=
  loc' ← validate_location loc;
  ok (Marker loc' popup ic tooltip).

(** [HeatMap(data, ...)] first checks the first two entries of every row
    as a location and keeps the rest of the row as it is. *)
Fixpoint validate_heat_locations (data : list (float * float * value))
    : result (list (float * float * value)) :=
  match data with
  | [] => ok []
  | (lat, lon, w) :: rest =>
      loc ← validate_location (lat, lon);
      rest' ← validate_heat_locations rest;
      ok ((loc.1, loc.2, w) :: rest')
  end.

(** A value the array library takes for a number. *)
Definition numeric (v : value) : bool :=
  match v with
  | VInt _ | VFloat _ | VBool _ => true
  | VStr _ | VNone => false
  end.

Definition is_nan_value (v : value) : bool :=
  match v with VFloat f => is_nan f | _ => false end.

(** It then tests the whole array for NaN: that test raises a
    [TypeError] if some entry is not a number, and the constructor raises
    a [ValueError] if some entry is NaN. *)
Definition validate_heat_data (data : list (float * float * value))
    : result (list (float * float * value)) :=
  data' ← validate_heat_locations data;
  if negb (forallb (fun e => numeric e.2) data')
  then raise (Exn TypeError "ufunc 'isnan' not supported for the input types")
  else if existsb (fun e => is_nan_value e.2) data'
  then raise (Exn ValueError "data may not contain NaNs.")
  else ok data'.

Definition new_HeatMap (data : list (float * float * value))
    (min_opacity max_opacity radius blur : value)
    (gradient : list (Q * string)) : result layer :=
  data' ← validate_heat_data data;
  ok (HeatMap data' min_opacity max_opacity radius blur gradient).

(** [child.add_to(m)]: the child becomes the last child of the map. *)
Definition add_to (child : layer) (m : Map) : Map :=
  MkMap (location m) (zoom_start m) (tiles m) (width m) (height m)
        (children m ++ [child]).

End folium.

(* ===================================================================== *)
(** ** The page (Streamlit)                                               *)
(* ===================================================================== *)

Module st.

Inductive container := Main | Sidebar | Col1 | Col2.

#[export] Instance container_eq_dec : EqDecision container.
Proof. solve_decision. Defined.

(** One call that puts something on the page. *)
Inductive element :=
  | set_page_config (page_title page_icon layout initial_sidebar_state : string)
  | title (body : string)
  | markdown (body : string)
  | header (body : string)
  | subheader (body : string)
  | error (body : fstring)
  | checkbox (label : string) (value : bool)
  | slider (label : string) (min_value max_value value : value)
  | columns (spec : list Z)
  | html (m : folium.Map) (height : Z)
  | metric (label : string) (v : Z).

Definition page := list (container * element).

(** A run of (a part of) the script: what it has put on the page, and how
    it ended.  An exception that is not caught ends the run: the calls
    made before it stay on the page, the calls after it are not made. *)
Record run (A : Type) := Run {
  shown : page;
  outcome : result A
}.
Arguments Run {A} _ _.
Arguments shown {A} _.
Arguments outcome {A} _.

#[export] Instance run_ret : MRet run := fun A a => Run [] (inr a).

#[export] Instance run_bind : MBind run := fun A B k r =>
  match outcome r with
  | inl e => Run (shown r) (inl e)
  | inr a => Run (shown r ++ shown (k a)) (outcome (k a))
  end.

Definition emit (c : container) (e : element) : run unit :=
  Run [(c, e)] (inr tt).

(** A computation that shows nothing. *)
Definition lift {A} (r : result A) : run A := Run [] r.

(** The widget state of the session: what the user last set each widget
    to, by label; a widget the user has not touched is absent. *)
Abbreviation session := (gmap string value).

(** What a checkbox returns: the user's setting, or the default. *)
Definition checkbox_state (s : session) (label : string) (default : bool) : bool :=
  match s !! label with
  | Some (VBool b) => b
  | _ => default
  end.

(** [st.sidebar.checkbox(label, value=default)] *)
Definition sidebar_checkbox (s : session) (label : string) (default : bool)
    : run bool :=
  emit Sidebar (checkbox label default);;
  mret (checkbox_state s label default).

(** Whether a setting is a number of the slider's type between its
    bounds. *)
Definition in_range (lo hi v : value) : bool :=
  match lo, hi, v with
  | VInt a, VInt b, VInt z => (a <=? z) && (z <=? b)
  | VFloat (Fin a), VFloat (Fin b), VFloat (Fin q) =>
      Qle_bool a q && Qle_bool q b
  | _, _, _ => false
  end.

(** What a slider returns: the user's setting if it lies between the
    bounds, otherwise the default. *)
Definition slider_state (s : session) (label : string)
    (min_value max_value default : value) : value :=
  match s !! label with
  | Some v => if in_range min_value max_value v then v else default
  | None => default
  end.

(** [st.sidebar.slider(label, min_value, max_value, value)] *)
Definition sidebar_slider (s : session) (label : string)
    (min_value max_value default : value) : run value :=
  emit Sidebar (slider label min_value max_value default);;
  mret (slider_state s label min_value max_value default).

End st.

Export st (run_ret, run_bind).

(* ===================================================================== *)
(** ** The outside world of the loader                                    *)
(* ===================================================================== *)

(** What the libraries do for the script: read a named layer of a
    dataset (or raise), reproject a layer (or raise), and compute in
    binary64 the mean of a column that holds at least one number (the
    sum in the library's order, the division, the rounding, an overflow
    to an infinity or to NaN: any float). *)
Record World := {
  read_file : string -> string -> result GeoDataFrame;
  to_crs : GeoDataFrame -> string -> result GeoDataFrame;
  float_mean : list float -> float
}.

(** A double quote, for the HTML and prose the script spells with one. *)
Definition dq : string := String (Ascii.ascii_of_nat 34) EmptyString.

Module app.

Import folium st.

(* --------------------------------------------------------------------- *)
(** *** load_data (lines 26-44)                                           *)
(* --------------------------------------------------------------------- *)

Definition shapefile_path : string := "Data/cholera-deaths".

Definition WGS84 : string := "EPSG:4326".

(** [gdf.crs and gdf.crs != 'EPSG:4326'] *)
Definition needs_reprojection (gdf : GeoDataFrame) : bool :=
  match crs gdf with
  | Some c => negb (String.eqb c WGS84)
  | None => false
  end.

(** [if gdf.crs and gdf.crs != 'EPSG:4326': gdf = gdf.to_crs('EPSG:4326')] *)
Definition to_wgs84 (w : World) (gdf : GeoDataFrame) : result GeoDataFrame :=
  if needs_reprojection gdf then to_crs w gdf WGS84 else ok gdf.

(** The body of the [try]. *)
Definition try_load (w : World) : result (GeoDataFrame * GeoDataFrame) :=
  deaths_gdf ← read_file w shapefile_path "Cholera_Deaths";
  pumps_gdf ← read_file w shapefile_path "Pumps";
  deaths_gdf ← to_wgs84 w deaths_gdf;
  pumps_gdf ← to_wgs84 w pumps_gdf;
  ok (deaths_gdf, pumps_gdf).

(** [load_data()], with its [except Exception as e] branch.  The function
    is cached by the host; a cached call shows and returns what the first
    call did, so one call is what is modelled. *)
Definition load_data (w : World)
    : run (option GeoDataFrame * option GeoDataFrame) :=
  match try_load w with
  | inr (deaths_gdf, pumps_gdf) => mret (Some deaths_gdf, Some pumps_gdf)
  | inl e =>
      emit Main (error [Lit "Error loading data: "; Fmt (VStr (exn_text e))]);;
      mret (None, None)
  end.

(* --------------------------------------------------------------------- *)
(** *** The centre of the map (lines 50-51)                               *)
(* --------------------------------------------------------------------- *)

Definition not_a_point (name : string) : exn :=
  Exn ValueError (name +:+ " attribute access only provided for Point geometries").

(** [gdf.geometry.x] and [gdf.geometry.y]: the column of one coordinate.
    The library gives it for point geometries only (those with both
    accessors); a missing geometry gives NaN. *)
Fixpoint geometry_column (name : string) (sel : shape -> option float)
    (rs : list row) : result (list float) :=
  match rs with
  | [] => ok []
  | r :: rs' =>
      v ← match row_geometry r with
          | None => ok NaN
          | Some s =>
              if has_xy (Some s)
              then match sel s with Some v => ok v | None => raise (not_a_point name) end
              else raise (not_a_point name)
          end;
      vs ← geometry_column name sel rs';
      ok (v :: vs)
  end.

Definition geometry_x (gdf : GeoDataFrame) : result (list float) :=
  geometry_column "x" attr_x (rows gdf).

Definition geometry_y (gdf : GeoDataFrame) : result (list float) :=
  geometry_column "y" attr_y (rows gdf).

(** The values of a column that are not NaN. *)
Definition numbers (l : list float) : list float :=
  filter (fun f => is_nan f = false) l.

(** [Series.mean()]: NaN values are skipped; the mean is NaN when nothing
    is left, and otherwise what the library's arithmetic gives for the
    numbers. *)
Definition mean (w : World) (l : list float) : float :=
  match numbers l with
  | [] => NaN
  | v :: vs => float_mean w (v :: vs)
  end.

(** [center_lat, center_lon] *)
Definition center (w : World) (deaths_gdf : GeoDataFrame)
    : result (float * float) :=
  ys ← geometry_y deaths_gdf;
  xs ← geometry_x deaths_gdf;
  ok (mean w ys, mean w xs).

(* --------------------------------------------------------------------- *)
(** *** The heatmap (lines 75-93)                                         *)
(* --------------------------------------------------------------------- *)

(** [row['Count'] if 'Count' in row else 1] *)
Definition weight (r : row) : value :=
  match row_attrs r !! "Count" with
  | Some count => count
  | None => VInt 1
  end.

(** The loop that fills [heat_data]. *)
Fixpoint heat_data (its : list (Z * row)) : result (list (float * float * value)) :=
  match its with
  | [] => ok []
  | (idx, r) :: rest =>
      '(lat, lon) ← lat_lon (row_geometry r);
      tail ← heat_data rest;
      ok ((lat, lon, weight r) :: tail)
  end.

Definition gradient : list (Q * string) :=
  [((2 # 10)%Q, "orange"); ((5 # 10)%Q, "red"); ((8 # 10)%Q, "darkred")].

Definition add_heatmap (deaths_gdf : GeoDataFrame)
    (heatmap_opacity heatmap_radius heatmap_blur : value) (m : Map) : result Map :=
  data ← heat_data (iterrows deaths_gdf);
  h ← new_HeatMap data (VFloat (Fin (3 # 10))) heatmap_opacity
        heatmap_radius heatmap_blur gradient;
  ok (add_to h m).

(* --------------------------------------------------------------------- *)
(** *** The death markers (lines 96-116)                                  *)
(* --------------------------------------------------------------------- *)

Definition skeleton_html : string :=
  "<div style=" +:+ dq +:+ "font-size: 18px; color: #696969; opacity: 0.9;"
  +:+ dq +:+ ">💀</div>".

Definition popup_text (idx : Z) (r : row) : fstring :=
  [Lit "<b>Cholera Death #"; Fmt (VInt (idx + 1)); Lit "</b>"] ++
  match row_attrs r !! "Count" with
  | Some count => [Lit "<br>Count: "; Fmt count]
  | None => []
  end.

Definition skeleton_icon : icon :=
  DivIcon (20, 20) (10, 10) [Lit skeleton_html].

Definition skeleton_marker (idx : Z) (r : row) : result layer :=
  '(lat, lon) ← lat_lon (row_geometry r);
  new_Marker (lat, lon) (Some (popup_text idx r)) skeleton_icon
    (Some [Lit "Cholera Death "; Fmt (VInt (idx + 1))]).

Fixpoint add_skeletons (its : list (Z * row)) (m : Map) : result Map :=
  match its with
  | [] => ok m
  | (idx, r) :: rest =>
      mk ← skeleton_marker idx r;
      add_skeletons rest (add_to mk m)
  end.

(* --------------------------------------------------------------------- *)
(** *** The pumps (lines 119-141)                                         *)
(* --------------------------------------------------------------------- *)

Definition pump_label_html (idx : Z) : fstring :=
  [Lit ("<div style=" +:+ dq +:+
        "font-size: 12pt; font-weight: bold; color: green; background-color: white; padding: 2px 5px; border: 1px solid green; border-radius: 3px;"
        +:+ dq +:+ ">Pump ");
   Fmt (VInt (idx + 1));
   Lit "</div>"].

Definition pump_marker (lat_lon : float * float) (idx : Z) : result layer :=
  new_Marker lat_lon
    (Some [Lit "<b>Water Pump #"; Fmt (VInt (idx + 1)); Lit "</b>"])
    (Icon "green" "cog" "fa")
    (Some [Lit "Water Pump "; Fmt (VInt (idx + 1))]).

Definition pump_label (lat_lon : float * float) (idx : Z) : result layer :=
  new_Marker lat_lon None
    (DivIcon (150, 36) (0, 0) (pump_label_html idx)) None.

(** One turn of the loop: the marker, then the label if labels are on. *)
Definition add_pump (show_pump_labels : bool) (idx : Z) (r : row) (m : Map)
    : result Map :=
  '(lat, lon) ← lat_lon (row_geometry r);
  mk ← pump_marker (lat, lon) idx;
  let m := add_to mk m in
  if show_pump_labels then
    lb ← pump_label (lat, lon) idx;
    ok (add_to lb m)
  else ok m.

Fixpoint add_pumps (show_pump_labels : bool) (its : list (Z * row)) (m : Map)
    : result Map :=
  match its with
  | [] => ok m
  | (idx, r) :: rest =>
      m' ← add_pump show_pump_labels idx r m;
      add_pumps show_pump_labels rest m'
  end.

(* --------------------------------------------------------------------- *)
(** *** The page (lines 10-23, 46-195)                                    *)
(* --------------------------------------------------------------------- *)

Definition intro_text : string :=
  "
### Interactive Epidemiology Dashboard
Explore the classic cholera map that revolutionized epidemiology and public health.
".

Definition legend_text : string :=
  "
        - 💀 **Dark Silver**: Cholera Deaths
        - ⚙️ **Green**: Water Pumps
        - 🔥 **Heatmap**: Death Density
          - Orange: Low density
          - Red: High density
        ".

Definition history_text : string :=
  "
        Dr. John Snow's 1854 cholera map demonstrated that cholera was 
        spread through contaminated water, not " +:+ dq +:+ "bad air" +:+ dq +:+ " (miasma theory).
        
        This groundbreaking work laid the foundation for modern epidemiology.
        ".

Definition about_text : string :=
  "
This dashboard recreates John Snow's classic 1854 cholera map using modern geospatial tools.

**Live Dashboard:** [Your Streamlit Link]

**Tools used:**
- Python
- GeoPandas
- Folium
- Streamlit
".

(** Lines 10-23. *)
Definition page_head : run unit :=
  emit Main (set_page_config "John Snow Cholera Dashboard" "💀" "wide" "expanded");;
  emit Main (title "💀 John Snow Cholera Outbreak - 1854");;
  emit Main (markdown intro_text).

(** The selected options, as the sidebar widgets return them. *)
Record options := Options {
  show_heatmap : bool;
  show_skeletons : bool;
  show_pump_labels : bool;
  heatmap_radius : value;
  heatmap_blur : value;
  heatmap_opacity : value
}.

(** Lines 54-63. *)
Definition sidebar_controls (s : session) : run options :=
  emit Sidebar (header "Dashboard Controls");;
  emit Sidebar (subheader "Map Layers");;
  show_heatmap ← sidebar_checkbox s "Show Heatmap" true;
  show_skeletons ← sidebar_checkbox s "Show Skeleton Markers" true;
  show_pump_labels ← sidebar_checkbox s "Show Pump Labels" true;
  emit Sidebar (subheader "Heatmap Settings");;
  heatmap_radius ← sidebar_slider s "Heatmap Radius" (VInt 10) (VInt 30) (VInt 15);
  heatmap_blur ← sidebar_slider s "Heatmap Blur" (VInt 5) (VInt 20) (VInt 10);
  heatmap_opacity ← sidebar_slider s "Heatmap Opacity"
      (VFloat (Fin (1 # 10))) (VFloat (Fin 1)) (VFloat (Fin (6 # 10)));
  mret (Options show_heatmap show_skeletons show_pump_labels
                heatmap_radius heatmap_blur heatmap_opacity).

(** Lines 66-144: the map and its layers, in the order of the script. *)
Definition compose_map (deaths_gdf pumps_gdf : GeoDataFrame)
    (center : float * float) (o : options) : result Map :=
  m ← new_Map center 17 "OpenStreetMap" "100%" 600;
  m ← (if show_heatmap o
       then add_heatmap deaths_gdf (heatmap_opacity o) (heatmap_radius o)
                        (heatmap_blur o) m
       else ok m);
  m ← (if show_skeletons o
       then add_skeletons (iterrows deaths_gdf) m
       else ok m);
  m ← add_pumps (show_pump_labels o) (iterrows pumps_gdf) m;
  ok (add_to LayerControl m).

(** Lines 157-177. *)
Definition statistics_panel (deaths_gdf pumps_gdf : GeoDataFrame) : run unit :=
  emit Col2 (subheader "📊 Outbreak Statistics");;
  emit Col2 (metric "Total Cholera Deaths" (Z.of_nat (length (rows deaths_gdf))));;
  emit Col2 (metric "Water Pumps" (Z.of_nat (length (rows pumps_gdf))));;
  emit Col2 (subheader "🎯 Legend");;
  emit Col2 (markdown legend_text);;
  emit Col2 (subheader "📖 Historical Context");;
  emit Col2 (markdown history_text).

(** Lines 49-177: the branch taken when both layers are there.  The map
    is saved to HTML and that HTML is embedded; the page keeps the map
    object whose HTML it is. *)
Definition dashboard (w : World) (s : session)
    (deaths_gdf pumps_gdf : GeoDataFrame) : run unit :=
  c ← lift (center w deaths_gdf);
  o ← sidebar_controls s;
  m ← lift (compose_map deaths_gdf pumps_gdf c o);
  emit Main (columns [2; 1]);;
  emit Col1 (html m 600);;
  statistics_panel deaths_gdf pumps_gdf.

(** Lines 183-195. *)
Definition footer : run unit :=
  emit Sidebar (markdown "---");;
  emit Sidebar (markdown "### About");;
  emit Sidebar (markdown about_text).

(** The whole script. *)
Definition script (w : World) (s : session) : run unit :=
  page_head;;
  '(deaths_gdf, pumps_gdf) ← load_data w;
  match deaths_gdf, pumps_gdf with
  | Some deaths_gdf, Some pumps_gdf => dashboard w s deaths_gdf pumps_gdf
  | _, _ =>
      emit Main (error [Lit "Could not load the data. Please check if the data folder exists."])
  end;;
  footer.

End app.

(* ===================================================================== *)
(** ** What is on a page                                                  *)
(* ===================================================================== *)

Module view.

Import folium st.

(** The maps embedded in the page. *)
Definition maps (p : page) : list Map :=
  omap (fun ce => match ce.2 with html m _ => Some m | _ => None end) p.

(** The error boxes of the page. *)
Definition errors (p : page) : list fstring :=
  omap (fun ce => match ce.2 with error body => Some body | _ => None end) p.

(** The metrics of the page, with their labels. *)
Definition metrics (p : page) : list (string * Z) :=
  omap (fun ce => match ce.2 with metric l v => Some (l, v) | _ => None end) p.

(** The input widgets of the page. *)
Definition is_widget (e : element) : bool :=
  match e with
  | checkbox _ _ | slider _ _ _ _ => true
  | _ => false
  end.

Definition widgets (p : page) : list element :=
  filter (fun e => is_widget e = true) (p.*2).

(** The markdown texts of one container. *)
Definition markdowns (c : container) (p : page) : list string :=
  omap (fun ce => match ce with
                  | (c', markdown body) =>
                      if decide (c' = c) then Some body else None
                  | _ => None
                  end) p.

(** The kinds of layer the script adds.  A death marker carries a popup
    and an HTML icon; a pump marker the library's own icon; a pump label
    an HTML icon and no popup. *)
Definition is_heatmap (l : layer) : bool :=
  match l with HeatMap _ _ _ _ _ _ => true | _ => false end.

Definition is_death_marker (l : layer) : bool :=
  match l with Marker _ (Some _) (DivIcon _ _ _) _ => true | _ => false end.

Definition is_pump_marker (l : layer) : bool :=
  match l with Marker _ _ (Icon _ _ _) _ => true | _ => false end.

Definition is_pump_label (l : layer) : bool :=
  match l with Marker _ None (DivIcon _ _ _) _ => true | _ => false end.

Definition is_marker (l : layer) : bool :=
  match l with Marker _ _ _ _ => true | _ => false end.

(** The layers of one kind. *)
Abbreviation kind f := (fun l : layer => f l = true).

Definition count (f : layer -> bool) (m : Map) : nat :=
  length (filter (kind f) (children m)).

(** All the markers the page displays. *)
Definition markers_shown (p : page) : list layer :=
  m ← maps p; filter (fun l => is_marker l = true) (children m).

(** A map with its density layers taken away, everything else as it is. *)
Definition without_heatmap (m : Map) : Map :=
  MkMap (location m) (zoom_start m) (tiles m) (width m) (height m)
        (filter (fun l => is_heatmap l = false) (children m)).

(** A page entry with [f] applied to the map it embeds, if it embeds one. *)
Definition on_map (f : Map -> Map) (ce : container * element)
    : container * element :=
  match ce with
  | (c, html m h) => (c, html (f m) h)
  | _ => ce
  end.

End view.

(* ===================================================================== *)
(** ** The layers a render adds, record by record                         *)
(* ===================================================================== *)

Import folium st app view.

Module layers.

(** Several [add_to] in a row. *)
Definition add_all (ls : list layer) (m : Map) : Map :=
  MkMap (location m) (zoom_start m) (tiles m) (width m) (height m)
        (children m ++ ls).

(** The heat row of one death record. *)
Definition heat_row (ir : Z * row) : result (float * float * value) :=
  '(lat, lon) ← lat_lon (row_geometry ir.2);
  ok (lat, lon, weight ir.2).

(** The marker of one death record. *)
Definition skeleton_of (ir : Z * row) : result layer :=
  skeleton_marker ir.1 ir.2.

(** The marker of one pump record, and its label when labels are on. *)
Definition pump_layers (show_pump_labels : bool) (ir : Z * row)
    : result (list layer) :=
  '(lat, lon) ← lat_lon (row_geometry ir.2);
  mk ← pump_marker (lat, lon) ir.1;
  if show_pump_labels then
    lb ← pump_label (lat, lon) ir.1;
    ok [mk; lb]
  else ok [mk].

(** The density layer, when it is on. *)
Definition heat_layers (deaths_gdf : GeoDataFrame) (o : options)
    : result (list layer) :=
  if show_heatmap o then
    data ← heat_data (iterrows deaths_gdf);
    h ← new_HeatMap data (VFloat (Fin (3 # 10))) (heatmap_opacity o)
          (heatmap_radius o) (heatmap_blur o) gradient;
    ok [h]
  else ok [].

(** The death markers, when they are on. *)
Definition skeleton_layers (deaths_gdf : GeoDataFrame) (o : options)
    : result (list layer) :=
  if show_skeletons o then mapM skeleton_of (iterrows deaths_gdf) else ok [].

(** What the sidebar widgets return in a session. *)
Definition options_of (s : session) : options :=
  Options (checkbox_state s "Show Heatmap" true)
          (checkbox_state s "Show Skeleton Markers" true)
          (checkbox_state s "Show Pump Labels" true)
          (slider_state s "Heatmap Radius" (VInt 10) (VInt 30) (VInt 15))
          (slider_state s "Heatmap Blur" (VInt 5) (VInt 20) (VInt 10))
          (slider_state s "Heatmap Opacity"
             (VFloat (Fin (1 # 10))) (VFloat (Fin 1)) (VFloat (Fin (6 # 10)))).

(** The part of the page below the sidebar controls, for a composed map. *)
Definition body_page (deaths_gdf pumps_gdf : GeoDataFrame) (m : Map) : page :=
  [(Main, columns [2; 1]); (Col1, html m 600)]
  ++ shown (statistics_panel deaths_gdf pumps_gdf).

(** The two error boxes of a failed load. *)
Definition load_error (e : exn) : fstring :=
  [Lit "Error loading data: "; Fmt (VStr (exn_text e))].

Definition could_not_load : fstring :=
  [Lit "Could not load the data. Please check if the data folder exists."].

End layers.

(* ===================================================================== *)
(** ** Records the map can show                                           *)
(* ===================================================================== *)

Module valid.

(** A record whose geometry is a point at the numeric coordinates
    [(x, y)]. *)
Definition located (r : row) (xy : Q * Q) : Prop :=
  exists s,
    row_geometry r = Some s /\
    attr_x s = Some (Fin xy.1) /\ attr_y s = Some (Fin xy.2).

(** A record one of the two access shapes resolves to coordinates the
    map library takes: neither is NaN. *)
Definition plottable (r : row) : Prop :=
  exists lat lon,
    lat_lon (row_geometry r) = inr (lat, lon) /\
    is_nan lat = false /\ is_nan lon = false.

(** A record whose heat weight the density layer takes: a number that is
    not NaN (the record's [Count], or 1 when it has none). *)
Definition weighable (r : row) : Prop :=
  numeric (weight r) = true /\ is_nan_value (weight r) = false.

(** A heat row the density layer takes: a location without NaN and a
    weight that is a number and not NaN. *)
Definition heat_row_ok (e : float * float * value) : Prop :=
  is_nan e.1.1 = false /\ is_nan e.1.2 = false /\
  numeric e.2 = true /\ is_nan_value e.2 = false.

(** A record neither access shape resolves. *)
Definition unresolvable (r : row) : Prop :=
  exists e, lat_lon (row_geometry r) = inl e.

End valid.

(* ===================================================================== *)
(** ** Sample datasets                                                    *)
(* ===================================================================== *)

Module samples.

(** A point geometry: both accessors and a one-entry coordinate sequence. *)
Definition point (x y : Q) : geometry :=
  Some (Shape (Some (Fin x)) (Some (Fin y)) (Some [[Fin x; Fin y]])).

(** A geometry with a coordinate sequence and no [x]/[y] accessors. *)
Definition coords_only (x y : Q) : geometry :=
  Some (Shape None None (Some [[Fin x; Fin y]])).

(** A geometry with neither access shape. *)
Definition shapeless : geometry := Some (Shape None None None).

Definition death_a : row :=
  Row (point (-137930 # 1000000) (51513418 # 1000000))
      {[ "Id" := VInt 0; "Count" := VInt 3 ]}.

Definition death_b : row :=
  Row (point (-137883 # 1000000) (51513361 # 1000000))
      {[ "Id" := VInt 0; "Count" := VInt 2 ]}.

(** A death record with no [Count] column. *)
Definition death_c : row :=
  Row (point (-137853 # 1000000) (51513317 # 1000000)) {[ "Id" := VInt 0 ]}.

Definition broad_street_pump : row :=
  Row (point (-136668 # 1000000) (51513341 # 1000000)) {[ "Id" := VInt 0 ]}.

Definition crown_chapel_pump : row :=
  Row (coords_only (-139586 # 1000000) (51513876 # 1000000)) {[ "Id" := VInt 0 ]}.

Definition broken_pump : row := Row shapeless {[ "Id" := VInt 0 ]}.

Definition deaths_layer : GeoDataFrame :=
  Gdf (Some "EPSG:4326") [death_a; death_b; death_c].

Definition pumps_layer : GeoDataFrame :=
  Gdf (Some "EPSG:4326") [broad_street_pump; crown_chapel_pump].

(** The arithmetic of the sample worlds: the exact mean of a column of
    finite numbers. *)
Definition exact_mean (l : list float) : float :=
  match mapM (fun f => match f with Fin q => Some q | _ => None end) l with
  | Some (q :: qs) =>
      Fin (Qred (foldr Qplus 0%Q (q :: qs) / inject_Z (Z.of_nat (length (q :: qs)))))
  | _ => NaN
  end.

(** A dataset directory holding the two given layers (or the failure of
    reading one); nothing can be reprojected. *)
Definition directory (deaths pumps : result GeoDataFrame) : World := {|
  read_file path layer :=
    if String.eqb layer "Cholera_Deaths" then deaths
    else if String.eqb layer "Pumps" then pumps
    else raise (Exn ValueError "Layer not found");
  to_crs gdf target := raise (Exn OSError "no projection data");
  float_mean := exact_mean
|}.

(** The dataset as shipped. *)
Definition soho : World := directory (ok deaths_layer) (ok pumps_layer).

(** The [Pumps] layer is missing: the deaths layer alone could be read. *)
Definition pumps_missing : World :=
  directory (ok deaths_layer) (raise (Exn ValueError "Layer 'Pumps' not found")).

(** The deaths layer is there and has no record. *)
Definition no_deaths : World :=
  directory (ok (Gdf (Some "EPSG:4326") [])) (ok pumps_layer).

(** The pumps layer is there and has no record. *)
Definition no_pumps : World :=
  directory (ok deaths_layer) (ok (Gdf (Some "EPSG:4326") [])).

(** One pump record exposes neither access shape. *)
Definition one_broken_pump : World :=
  directory (ok deaths_layer)
            (ok (Gdf (Some "EPSG:4326") [broad_street_pump; broken_pump])).

(** The same dataset surveyed on the British National Grid; the
    projection library turns either layer into its WGS84 counterpart. *)
Definition british_grid : World := {|
  read_file path layer :=
    if String.eqb layer "Cholera_Deaths" then
      ok (Gdf (Some "EPSG:27700")
            [Row (point 529308 181031) {[ "Id" := VInt 0; "Count" := VInt 3 ]}])
    else if String.eqb layer "Pumps" then
      ok (Gdf (Some "EPSG:27700")
            [Row (point 529396 181025) {[ "Id" := VInt 0 ]}])
    else raise (Exn ValueError "Layer not found");
  to_crs gdf target :=
    if bool_decide (length (rows gdf) = 1%nat) then
      ok (Gdf (Some target)
            (match rows gdf with
             | [Row _ attrs] =>
                 if bool_decide (is_Some (attrs !! "Count"))
                 then [Row (row_geometry death_a) attrs]
                 else [Row (row_geometry broad_street_pump) attrs]
             | rs => rs
             end))
    else raise (Exn OSError "no projection data");
  float_mean := exact_mean
|}.

(** The death records are drawn as geometries with a coordinate sequence
    and no [x]/[y] accessors. *)
Definition deaths_as_sequences : World :=
  directory
    (ok (Gdf (Some "EPSG:4326")
           [Row (coords_only (-137930 # 1000000) (51513418 # 1000000))
                {[ "Id" := VInt 0; "Count" := VInt 3 ]}]))
    (ok pumps_layer).



(** A new map, as [folium.Map] makes it: the tile layer and nothing else. *)
Definition blank_map : Map :=
  MkMap (Fin (51513350 # 1000000), Fin (-137500 # 1000000))
        17 "OpenStreetMap" "100%" 600 [TileLayer "OpenStreetMap"].

End samples.

(* ===================================================================== *)
(** ** Maps with one kind of layer left out                               *)
(* ===================================================================== *)

Module frames.

(** A map without its layers of kind [f], everything else as it is. *)
Definition without_kind (f : layer -> bool) (m : Map) : Map :=
  MkMap (location m) (zoom_start m) (tiles m) (width m) (height m)
        (filter (fun l => f l = false) (children m)).

(** The rows of the density layers of a map. *)
Definition density_data (m : Map) : list (list (float * float * value)) :=
  omap (fun l => match l with
                 | HeatMap data _ _ _ _ _ => Some data
                 | _ => None
                 end) (children m).

(** The steps of the loader's [try], in the order it takes them. *)
Inductive first_failure (w : World) (e : exn) : Prop :=
  | deaths_unreadable :
      read_file w shapefile_path "Cholera_Deaths" = inl e ->
      first_failure w e
  | pumps_unreadable d0 :
      read_file w shapefile_path "Cholera_Deaths" = inr d0 ->
      read_file w shapefile_path "Pumps" = inl e ->
      first_failure w e
  | deaths_not_reprojected d0 p0 c :
      read_file w shapefile_path "Cholera_Deaths" = inr d0 ->
      read_file w shapefile_path "Pumps" = inr p0 ->
      crs d0 = Some c -> c <> "EPSG:4326" ->
      to_crs w d0 "EPSG:4326" = inl e ->
      first_failure w e
  | pumps_not_reprojected d0 p0 d c :
      read_file w shapefile_path "Cholera_Deaths" = inr d0 ->
      read_file w shapefile_path "Pumps" = inr p0 ->
      to_wgs84 w d0 = inr d ->
      crs p0 = Some c -> c <> "EPSG:4326" ->
      to_crs w p0 "EPSG:4326" = inl e ->
      first_failure w e.

End frames.

(* ===================================================================== *)
(** ** Reasoning about results, loops and runs                            *)
(* ===================================================================== *)

Import layers valid samples frames.

(** Unfold the sequencing of results down to its [match]. *)
Ltac result_simpl :=
  repeat (cbn [mbind mret result_bind result_ret ok raise mapM] in *;
          unfold mbind, mret, result_bind, result_ret, ok, raise in *);
  cbn beta iota in *.

Lemma bind_inr {A B} (r : result A) (k : A -> result B) b :
  r ≫= k = inr b <-> exists a, r = inr a /\ k a = inr b.
Proof.
  destruct r as [e|a]; result_simpl; split.
  - discriminate.
  - intros (a & Ha & _). discriminate.
  - eauto.
  - intros (a' & Ha & Hk). by simplify_eq.
Qed.

Lemma bind_inl {A B} (r : result A) (k : A -> result B) e :
  r ≫= k = inl e <-> r = inl e \/ exists a, r = inr a /\ k a = inl e.
Proof.
  destruct r as [e'|a]; result_simpl; split.
  - intros [= ->]. by left.
  - intros [?|(a & ? & _)]; by simplify_eq.
  - eauto.
  - intros [?|(a' & ? & ?)]; by simplify_eq.
Qed.

Section loops.
Context {A B : Type}.
Implicit Types (f : A -> result B).

Lemma mapM_cons f a (l : list A) :
  mapM f (a :: l) = (b ← f a; bs ← mapM f l; inr (b :: bs)).
Proof. reflexivity. Qed.

(** A loop that collects one result per element returns exactly when
    every turn returns, and then the results line up with the
    elements. *)
Lemma mapM_inr f (l : list A) (out : list B) :
  mapM f l = inr out <-> Forall2 (fun a b => f a = inr b) l out.
Proof.
  revert out. induction l as [|a l IH]; intros out.
  - split.
    + intros [= <-]. constructor.
    + by inversion 1.
  - rewrite mapM_cons. split.
    + intros (b & Hb & Hrest)%bind_inr.
      apply bind_inr in Hrest as (bs & Hbs & [= <-]).
      constructor; [done|]. by apply IH.
    + inversion 1 as [|? b ? bs Hb Hbs]; subst.
      apply IH in Hbs. rewrite Hb, Hbs. reflexivity.
Qed.

(** It raises exactly when some turn raises. *)
Lemma mapM_inl f (l : list A) :
  (exists e, mapM f l = inl e) <-> Exists (fun a => exists e, f a = inl e) l.
Proof.
  induction l as [|a l IH].
  - split; [intros [e [=]] | by inversion 1].
  - rewrite Exists_cons, <- IH, mapM_cons. clear IH.
    destruct (f a) as [e|b]; result_simpl.
    + split; eauto.
    + destruct (mapM f l) as [e|bs]; result_simpl.
      * split; eauto.
      * split; [intros [e [=]] | intros [[e [=]]|[e [=]]]].
Qed.

Lemma mapM_total f (l : list A) :
  Forall (fun a => exists b, f a = inr b) l -> exists out, mapM f l = inr out.
Proof.
  induction 1 as [|a l [b Hb] _ [out Hout]].
  - by eexists.
  - rewrite mapM_cons, Hb, Hout. by eexists.
Qed.
End loops.

(** *** Runs *)

Lemma run_bind_returns {A B} (l : page) (a : A) (k : A -> run B) :
  Run l (inr a) ≫= k = Run (l ++ shown (k a)) (outcome (k a)).
Proof. reflexivity. Qed.

Lemma run_bind_raises {A B} (l : page) (e : exn) (k : A -> run B) :
  Run l (inl e) ≫= k = Run l (inl e).
Proof. reflexivity. Qed.

Lemma sidebar_controls_run (s : session) :
  sidebar_controls s = Run (shown (sidebar_controls ∅)) (inr (options_of s)).
Proof. reflexivity. Qed.

Lemma page_head_run : page_head = Run (shown page_head) (inr tt).
Proof. reflexivity. Qed.

Lemma footer_run : footer = Run (shown footer) (inr tt).
Proof. reflexivity. Qed.


Lemma load_data_returns w d p :
  try_load w = inr (d, p) -> load_data w = Run [] (inr (Some d, Some p)).
Proof. unfold load_data. by intros ->. Qed.

Lemma load_data_catches w e :
  try_load w = inl e ->
  load_data w = Run [(Main, error (load_error e))] (inr (None, None)).
Proof. unfold load_data. by intros ->. Qed.

(** The three ways the dashboard branch can end. *)
Lemma dashboard_run w s d p :
  dashboard w s d p =
  match center w d with
  | inl e => Run [] (inl e)
  | inr c =>
      match compose_map d p c (options_of s) with
      | inl e => Run (shown (sidebar_controls ∅)) (inl e)
      | inr m => Run (shown (sidebar_controls ∅) ++ body_page d p m) (inr tt)
      end
  end.
Proof.
  unfold dashboard, lift.
  destruct (center w d) as [e|c]; [reflexivity|].
  rewrite run_bind_returns, sidebar_controls_run, run_bind_returns.
  destruct (compose_map d p c (options_of s)) as [e|m]; reflexivity.
Qed.

(** The script after a successful load. *)
Lemma script_loaded w s d p :
  try_load w = inr (d, p) ->
  script w s =
  match center w d with
  | inl e => Run (shown page_head) (inl e)
  | inr c =>
      match compose_map d p c (options_of s) with
      | inl e => Run (shown page_head ++ shown (sidebar_controls ∅)) (inl e)
      | inr m =>
          Run (shown page_head ++ shown (sidebar_controls ∅)
               ++ body_page d p m ++ shown footer) (inr tt)
      end
  end.
Proof.
  intros Hload. unfold script.
  rewrite (load_data_returns _ _ _ Hload), page_head_run, footer_run.
  rewrite !run_bind_returns. cbn [shown outcome].
  rewrite dashboard_run.
  destruct (center w d) as [e|c]; [reflexivity|].
  destruct (compose_map d p c (options_of s)) as [e|m]; [reflexivity|].
  cbn -[body_page sidebar_controls].
  by rewrite <- !app_assoc.
Qed.

(** The script after a failed load. *)
Lemma script_load_failed w s e :
  try_load w = inl e ->
  script w s =
  Run (shown page_head
       ++ [(Main, error (load_error e)); (Main, error could_not_load)]
       ++ shown footer) (inr tt).
Proof.
  intros Hload. unfold script.
  by rewrite (load_data_catches _ _ Hload).
Qed.

(** *** The loops, one record at a time *)

Lemma heat_data_mapM its : heat_data its = mapM heat_row its.
Proof.
  induction its as [|[idx r] its IH]; [reflexivity|].
  rewrite mapM_cons. cbn [heat_data]. rewrite IH. unfold heat_row. cbn [snd].
  destruct (lat_lon (row_geometry r)) as [e|[lat lon]]; reflexivity.
Qed.

Lemma add_all_nil m : add_all [] m = m.
Proof. destruct m. unfold add_all; cbn. by rewrite app_nil_r. Qed.

Lemma add_all_add_to l ls m : add_all ls (add_to l m) = add_all (l :: ls) m.
Proof. unfold add_all, add_to; cbn. by rewrite <- app_assoc. Qed.

Lemma add_all_app ls1 ls2 m : add_all ls2 (add_all ls1 m) = add_all (ls1 ++ ls2) m.
Proof. unfold add_all; cbn. by rewrite <- app_assoc. Qed.

Lemma add_skeletons_mapM its m :
  add_skeletons its m = (ls ← mapM skeleton_of its; ok (add_all ls m)).
Proof.
  revert m. induction its as [|[idx r] its IH]; intros m.
  - cbn. by rewrite add_all_nil.
  - rewrite mapM_cons. cbn [add_skeletons].
    change (skeleton_of (idx, r)) with (skeleton_marker idx r).
    destruct (skeleton_marker idx r) as [e|mk]; [reflexivity|].
    result_simpl. rewrite IH.
    destruct (mapM skeleton_of its) as [e|ls]; result_simpl; [reflexivity|].
    by rewrite add_all_add_to.
Qed.

Lemma add_pump_layers b idx r m :
  add_pump b idx r m = (ls ← pump_layers b (idx, r); ok (add_all ls m)).
Proof.
  unfold add_pump, pump_layers. cbn [fst snd].
  destruct (lat_lon (row_geometry r)) as [e|[lat lon]]; [reflexivity|].
  result_simpl.
  destruct (pump_marker (lat, lon) idx) as [e|mk]; [reflexivity|].
  destruct b.
  - destruct (pump_label (lat, lon) idx) as [e|lb]; [reflexivity|].
    by rewrite <- add_all_add_to, <- add_all_add_to, add_all_nil.
  - by rewrite <- add_all_add_to, add_all_nil.
Qed.

Lemma add_pumps_mapM b its m :
  add_pumps b its m = (gs ← mapM (pump_layers b) its; ok (add_all (concat gs) m)).
Proof.
  revert m. induction its as [|[idx r] its IH]; intros m.
  - cbn. by rewrite add_all_nil.
  - rewrite mapM_cons. cbn [add_pumps]. rewrite add_pump_layers.
    destruct (pump_layers b (idx, r)) as [e|g]; [reflexivity|].
    result_simpl. rewrite IH.
    destruct (mapM (pump_layers b) its) as [e|gs]; result_simpl; [reflexivity|].
    by rewrite add_all_app.
Qed.

Lemma add_to_add_all l m : add_to l m = add_all [l] m.
Proof. reflexivity. Qed.

(** The stages after the density layer. *)
Lemma compose_tail d p o hs m0 :
  (m ← (if show_skeletons o then add_skeletons (iterrows d) (add_all hs m0)
        else ok (add_all hs m0));
   m ← add_pumps (show_pump_labels o) (iterrows p) m;
   ok (add_to LayerControl m)) =
  (ss ← skeleton_layers d o;
   gs ← mapM (pump_layers (show_pump_labels o)) (iterrows p);
   ok (add_all (hs ++ ss ++ concat gs ++ [LayerControl]) m0)).
Proof.
  unfold skeleton_layers.
  assert (Hss :
    (if show_skeletons o then add_skeletons (iterrows d) (add_all hs m0)
     else ok (add_all hs m0)) =
    (ss ← (if show_skeletons o then mapM skeleton_of (iterrows d) else ok []);
     ok (add_all (hs ++ ss) m0))).
  { destruct (show_skeletons o).
    - rewrite add_skeletons_mapM.
      destruct (mapM skeleton_of (iterrows d)) as [e|ss]; [reflexivity|].
      result_simpl. by rewrite add_all_app.
    - result_simpl. by rewrite app_nil_r. }
  rewrite Hss. clear Hss.
  destruct (if show_skeletons o then mapM skeleton_of (iterrows d) else ok [])
    as [e|ss]; [reflexivity|].
  result_simpl. rewrite add_pumps_mapM.
  destruct (mapM (pump_layers (show_pump_labels o)) (iterrows p)) as [e|gs];
    [reflexivity|].
  result_simpl.
  by rewrite add_to_add_all, !add_all_app, <- !app_assoc.
Qed.

(** The composed map, as the layers of its four stages. *)
Lemma compose_map_layers d p c o :
  compose_map d p c o =
  (loc ← validate_location c;
   hs ← heat_layers d o;
   ss ← skeleton_layers d o;
   gs ← mapM (pump_layers (show_pump_labels o)) (iterrows p);
   ok (MkMap loc 17 "OpenStreetMap" "100%" 600
             (TileLayer "OpenStreetMap"
              :: hs ++ ss ++ concat gs ++ [LayerControl]))).
Proof.
  unfold compose_map, new_Map, heat_layers, add_heatmap.
  destruct (validate_location c) as [e|loc]; [reflexivity|].
  change (inr loc ≫= ?k) with (k loc). cbn beta.
  change (ok ?m ≫= ?k) with (k m). cbn beta.
  set (m0 := MkMap loc 17 "OpenStreetMap" "100%" 600 [TileLayer "OpenStreetMap"]).
  destruct (show_heatmap o).
  - destruct (heat_data (iterrows d)) as [e|data]; [reflexivity|].
    change (inr data ≫= ?k) with (k data). cbn beta.
    destruct (new_HeatMap _ _ _ _ _ _) as [e|h]; [reflexivity|].
    change (inr h ≫= ?k) with (k h). cbn beta.
    change (ok ?m ≫= ?k) with (k m). cbn beta.
    rewrite add_to_add_all. apply compose_tail.
  - change (ok ?m ≫= ?k) with (k m). cbn beta.
    rewrite <- (add_all_nil m0) at 1. apply (compose_tail d p o []).
Qed.

(** *** What a completed composition consists of *)

Lemma validate_location_inr c loc :
  validate_location c = inr loc <-> loc = c /\ is_nan c.1 = false /\ is_nan c.2 = false.
Proof.
  unfold validate_location.
  destruct (is_nan c.1), (is_nan c.2); cbn; split;
    try discriminate; try (intros (_ & ? & ?); discriminate).
  - intros [= <-]. done.
  - by intros (-> & _).
Qed.

Lemma validate_heat_locations_inr data data' :
  validate_heat_locations data = inr data' <->
  data' = data /\
  Forall (fun e => is_nan e.1.1 = false /\ is_nan e.1.2 = false) data.
Proof.
  revert data'. induction data as [|[[lat lon] w] data IH]; intros data'.
  - cbn. split; [by intros [= <-]|by intros [-> _]].
  - cbn [validate_heat_locations]. rewrite bind_inr. split.
    + intros (loc & (-> & ? & ?)%validate_location_inr & Hrest).
      apply bind_inr in Hrest as (rest & [-> ?]%IH & [= <-]).
      split; [done|]. by constructor.
    + intros [-> Hall]. inversion Hall as [|? ? [Hlat Hlon] Hrest]; subst.
      exists (lat, lon). split; [by apply validate_location_inr|].
      apply bind_inr. exists data. split; [by apply IH|done].
Qed.

Lemma validate_heat_data_iff data data' :
  validate_heat_data data = inr data' <->
  data' = data /\ Forall heat_row_ok data.
Proof.
  unfold validate_heat_data. rewrite bind_inr. split.
  - intros (d0 & [-> Hloc]%validate_heat_locations_inr & H).
    destruct (forallb (fun e => numeric e.2) data) eqn:Hnum; [|done].
    destruct (existsb (fun e => is_nan_value e.2) data) eqn:Hnan; [done|].
    cbn in H. injection H as <-. split; [done|].
    rewrite forallb_forall in Hnum.
    apply Forall_forall. intros e He.
    rewrite Forall_forall in Hloc. destruct (Hloc e He) as [? ?].
    repeat split; try done.
    + apply Hnum. by apply list_elem_of_In.
    + destruct (is_nan_value e.2) eqn:Hv; [|done].
      assert (existsb (fun e => is_nan_value e.2) data = true); [|congruence].
      apply existsb_exists. exists e. split; [by apply list_elem_of_In|done].
  - intros [-> Hall]. exists data. split.
    + apply validate_heat_locations_inr. split; [done|].
      eapply Forall_impl; [exact Hall|]. by intros e (? & ? & _).
    + assert (forallb (fun e => numeric e.2) data = true) as ->.
      { apply forallb_forall. intros e He%list_elem_of_In.
        rewrite Forall_forall in Hall. by destruct (Hall e He) as (_ & _ & ? & _). }
      assert (existsb (fun e => is_nan_value e.2) data = false) as ->; [|done].
      apply not_true_is_false. intros (e & He%list_elem_of_In & Hv)%existsb_exists.
      rewrite Forall_forall in Hall. destruct (Hall e He) as (_ & _ & _ & ?).
      congruence.
Qed.

Lemma validate_heat_data_inr data data' :
  validate_heat_data data = inr data' -> data' = data.
Proof. by intros [-> _]%validate_heat_data_iff. Qed.

Lemma compose_map_inr d p c o m :
  compose_map d p c o = inr m <->
  exists hs ss gs,
    validate_location c = inr (location m) /\
    heat_layers d o = inr hs /\
    skeleton_layers d o = inr ss /\
    mapM (pump_layers (show_pump_labels o)) (iterrows p) = inr gs /\
    m = MkMap (location m) 17 "OpenStreetMap" "100%" 600
              (TileLayer "OpenStreetMap"
               :: hs ++ ss ++ concat gs ++ [LayerControl]).
Proof.
  rewrite compose_map_layers. split.
  - intros (loc & Hloc & H)%bind_inr.
    apply bind_inr in H as (hs & Hhs & H).
    apply bind_inr in H as (ss & Hss & H).
    apply bind_inr in H as (gs & Hgs & [= <-]).
    by exists hs, ss, gs.
  - intros (hs & ss & gs & -> & -> & -> & -> & Hm). result_simpl. by rewrite Hm at 2.
Qed.

Lemma heat_layers_inr d o hs :
  heat_layers d o = inr hs ->
  (show_heatmap o = false /\ hs = []) \/
  (show_heatmap o = true /\
   exists data,
     mapM heat_row (iterrows d) = inr data /\
     hs = [HeatMap data (VFloat (Fin (3 # 10))) (heatmap_opacity o)
             (heatmap_radius o) (heatmap_blur o) gradient]).
Proof.
  unfold heat_layers, new_HeatMap. destruct (show_heatmap o).
  - intros (data & Hdata & H)%bind_inr. right. split; [done|].
    apply bind_inr in H as (h & H & [= <-]).
    apply bind_inr in H as (data' & ->%validate_heat_data_inr & [= <-]).
    exists data. by rewrite <- heat_data_mapM.
  - intros [= <-]. by left.
Qed.

Lemma validate_heat_data_numbers data :
  Forall heat_row_ok data -> validate_heat_data data = inr data.
Proof. intros H. by apply validate_heat_data_iff. Qed.

(** *** The rows of a layer and their index labels *)

Lemma iterrows_from_rows i rs : (iterrows_from i rs).*2 = rs.
Proof.
  revert i. induction rs as [|r rs IH]; intros i; cbn; [done|]. by rewrite IH.
Qed.

Lemma length_iterrows_from i rs : length (iterrows_from i rs) = length rs.
Proof. by rewrite <- (iterrows_from_rows i rs) at 2; rewrite length_fmap. Qed.

Lemma Forall_iterrows_from (P : row -> Prop) i rs :
  Forall (fun ir => P ir.2) (iterrows_from i rs) <-> Forall P rs.
Proof.
  rewrite <- (iterrows_from_rows i rs) at 2. by rewrite Forall_fmap.
Qed.

Lemma Exists_iterrows_from (P : row -> Prop) i rs :
  Exists (fun ir => P ir.2) (iterrows_from i rs) <-> Exists P rs.
Proof.
  rewrite <- (iterrows_from_rows i rs) at 2. by rewrite Exists_fmap.
Qed.

(** *** One record *)

Lemma lat_lon_located r xy :
  located r xy -> lat_lon (row_geometry r) = inr (Fin xy.2, Fin xy.1).
Proof.
  intros (s & -> & Hx & Hy). destruct s as [x y cs]. cbn in Hx, Hy. subst.
  reflexivity.
Qed.

Lemma new_Marker_inr loc popup ic tooltip l :
  new_Marker loc popup ic tooltip = inr l <->
  is_nan loc.1 = false /\ is_nan loc.2 = false /\ l = Marker loc popup ic tooltip.
Proof.
  unfold new_Marker. rewrite bind_inr. split.
  - intros (loc' & (-> & ? & ?)%validate_location_inr & [= <-]). done.
  - intros (? & ? & ->). exists loc. by rewrite validate_location_inr.
Qed.

Lemma heat_row_inr ir e :
  heat_row ir = inr e <->
  exists lat lon, lat_lon (row_geometry ir.2) = inr (lat, lon) /\
                  e = (lat, lon, weight ir.2).
Proof.
  unfold heat_row. rewrite bind_inr. split.
  - intros ([lat lon] & H & [= <-]). eauto.
  - intros (lat & lon & H & ->). by exists (lat, lon).
Qed.

Lemma skeleton_of_inr ir l :
  skeleton_of ir = inr l <->
  exists lat lon,
    lat_lon (row_geometry ir.2) = inr (lat, lon) /\
    is_nan lat = false /\ is_nan lon = false /\
    l = Marker (lat, lon) (Some (popup_text ir.1 ir.2)) skeleton_icon
          (Some [Lit "Cholera Death "; Fmt (VInt (ir.1 + 1))]).
Proof.
  unfold skeleton_of, skeleton_marker. rewrite bind_inr. split.
  - intros ([lat lon] & H & (? & ? & ->)%new_Marker_inr). by exists lat, lon.
  - intros (lat & lon & H & ? & ? & ->). exists (lat, lon).
    by rewrite new_Marker_inr.
Qed.

Lemma pump_layers_inr b ir g :
  pump_layers b ir = inr g <->
  exists lat lon,
    lat_lon (row_geometry ir.2) = inr (lat, lon) /\
    is_nan lat = false /\ is_nan lon = false /\
    g = Marker (lat, lon)
          (Some [Lit "<b>Water Pump #"; Fmt (VInt (ir.1 + 1)); Lit "</b>"])
          (Icon "green" "cog" "fa")
          (Some [Lit "Water Pump "; Fmt (VInt (ir.1 + 1))])
        :: (if b then [Marker (lat, lon) None
                         (DivIcon (150, 36) (0, 0) (pump_label_html ir.1)) None]
            else []).
Proof.
  unfold pump_layers, pump_marker, pump_label. rewrite bind_inr. split.
  - intros ([lat lon] & H & (mk & (? & ? & ->)%new_Marker_inr & Hg)%bind_inr).
    exists lat, lon. do 3 (split; [done|]). destruct b.
    + apply bind_inr in Hg as (lb & (_ & _ & ->)%new_Marker_inr & [= <-]). done.
    + by injection Hg as <-.
  - intros (lat & lon & H & Hlat & Hlon & ->). exists (lat, lon). split; [done|].
    rewrite bind_inr. eexists. split; [by apply new_Marker_inr|].
    destruct b; [|done]. rewrite bind_inr. eexists.
    split; [by apply new_Marker_inr|done].
Qed.

(** *** Counting layers by kind *)

Lemma length_filter_all {A} (P : A -> Prop) `{forall a, Decision (P a)} l :
  Forall P l -> length (filter P l) = length l.
Proof.
  induction 1 as [|a l Ha _ IH]; [done|].
  rewrite filter_cons_True by done. cbn. by rewrite IH.
Qed.

Lemma length_filter_none {A} (P : A -> Prop) `{forall a, Decision (P a)} l :
  Forall (fun a => ~ P a) l -> length (filter P l) = 0%nat.
Proof.
  induction 1 as [|a l Ha _ IH]; [done|].
  by rewrite filter_cons_False.
Qed.

Lemma length_filter_concat {A} (P : A -> Prop) `{forall a, Decision (P a)} n ls :
  Forall (fun l => length (filter P l) = n) ls ->
  length (filter P (concat ls)) = (n * length ls)%nat.
Proof.
  induction 1 as [|l ls Hl _ IH]; cbn; [lia|].
  rewrite filter_app, length_app, Hl, IH. lia.
Qed.

(** *** When a composition completes *)

Lemma plottable_heat_row ir :
  plottable ir.2 -> weighable ir.2 ->
  exists e, heat_row ir = inr e /\ heat_row_ok e.
Proof.
  intros (lat & lon & H & Hlat & Hlon) [Hnum Hnan].
  exists (lat, lon, weight ir.2). split; [apply heat_row_inr; eauto|].
  by repeat split.
Qed.

Lemma plottable_skeleton ir : plottable ir.2 -> exists l, skeleton_of ir = inr l.
Proof.
  intros (lat & lon & H & ? & ?). eexists. apply skeleton_of_inr.
  exists lat, lon. eauto.
Qed.

Lemma plottable_pump b ir : plottable ir.2 -> exists g, pump_layers b ir = inr g.
Proof.
  intros (lat & lon & H & ? & ?). eexists. apply pump_layers_inr.
  exists lat, lon. eauto.
Qed.

Lemma plottable_heat_layers d o :
  (show_heatmap o = true ->
   Forall plottable (rows d) /\ Forall weighable (rows d)) ->
  exists hs, heat_layers d o = inr hs.
Proof.
  intros Hd. unfold heat_layers. destruct (show_heatmap o); [|by eexists].
  destruct (Hd eq_refl) as [Hplot Hweigh]. clear Hd.
  assert (exists data, mapM heat_row (iterrows d) = inr data /\
            Forall heat_row_ok data)
    as (data & Hdata & Hnum).
  { unfold iterrows. generalize 0.
    induction Hplot as [|r rs Hr _ IH]; intros i.
    - by exists [].
    - inversion Hweigh as [|? ? Hw Hweigh']; subst. cbn [iterrows_from].
      rewrite mapM_cons.
      destruct (plottable_heat_row (i, r) Hr Hw) as (e & -> & He).
      destruct (IH Hweigh' (i + 1)) as (data & -> & Hnum).
      eexists. split; [reflexivity|]. by constructor. }
  rewrite heat_data_mapM, Hdata. unfold new_HeatMap.
  result_simpl. rewrite (validate_heat_data_numbers _ Hnum). by eexists.
Qed.

Lemma plottable_skeleton_layers d o :
  (show_skeletons o = true -> Forall plottable (rows d)) ->
  exists ss, skeleton_layers d o = inr ss.
Proof.
  intros Hd. unfold skeleton_layers. destruct (show_skeletons o); [|by eexists].
  specialize (Hd eq_refl).
  apply mapM_total. apply (Forall_iterrows_from _ 0) in Hd.
  eapply Forall_impl; [apply Hd|]. apply plottable_skeleton.
Qed.

Lemma plottable_pump_layers b p :
  Forall plottable (rows p) -> exists gs, mapM (pump_layers b) (iterrows p) = inr gs.
Proof.
  intros Hp. apply mapM_total. apply (Forall_iterrows_from _ 0) in Hp.
  eapply Forall_impl; [apply Hp|]. apply plottable_pump.
Qed.

Lemma compose_map_completes d p c o :
  is_nan c.1 = false -> is_nan c.2 = false ->
  (show_heatmap o = true ->
   Forall plottable (rows d) /\ Forall weighable (rows d)) ->
  (show_skeletons o = true -> Forall plottable (rows d)) ->
  Forall plottable (rows p) ->
  exists m, compose_map d p c o = inr m.
Proof.
  intros Hlat Hlon Hheat Hskel Hp.
  destruct (plottable_heat_layers d o Hheat) as [hs Hhs].
  destruct (plottable_skeleton_layers d o Hskel) as [ss Hss].
  destruct (plottable_pump_layers (show_pump_labels o) p Hp) as [gs Hgs].
  assert (validate_location c = inr c) as Hc
    by (apply validate_location_inr; done).
  eexists. rewrite compose_map_layers, Hc. result_simpl.
  rewrite Hhs. result_simpl. rewrite Hss. result_simpl. rewrite Hgs.
  reflexivity.
Qed.

(** *** The centre of a layer of points *)






(* ===================================================================== *)
(** ** The loader                                                          *)
(* ===================================================================== *)

Lemma load_data_outcome w d p :
  outcome (load_data w) = inr (Some d, Some p) <-> try_load w = inr (d, p).
Proof.
  unfold load_data. destruct (try_load w) as [e|[d' p']]; cbn; split;
    intros; by simplify_eq.
Qed.

Lemma read_failure_fails_load w e :
  read_file w shapefile_path "Cholera_Deaths" = inl e \/
  (exists d, read_file w shapefile_path "Cholera_Deaths" = inr d /\
             read_file w shapefile_path "Pumps" = inl e) ->
  try_load w = inl e.
Proof.
  unfold try_load. intros [->|(d & -> & Hp)]; [reflexivity|].
  result_simpl. by rewrite Hp.
Qed.

(** C1, as the specification states it, fails: when the [Pumps] layer
    cannot be read the page does not show a single error message: it
    shows two. *)
Lemma load_failure_not_a_single_error :
  ~ exists msg, errors (shown (script pumps_missing ∅)) = [msg].
Proof. intros [msg H]. vm_compute in H. discriminate H. Qed.

(** C1, amended.  When reading either named layer fails with an exception
    [e], the load fails as a unit: [load_data] returns [(None, None)]; the
    page shows two error messages, first "Error loading data: " followed by
    the text of [e], then the fixed "Could not load the data" message where
    the map would be; no map and so no marker is displayed; the sidebar
    "about" text is still rendered and the script ends normally. *)
Theorem load_failure_page (w : World) (s : session) (e : exn) :
  read_file w shapefile_path "Cholera_Deaths" = inl e \/
  (exists d, read_file w shapefile_path "Cholera_Deaths" = inr d /\
             read_file w shapefile_path "Pumps" = inl e) ->
  outcome (load_data w) = inr (None, None) /\
  errors (shown (script w s)) =
    [ [Lit "Error loading data: "; Fmt (VStr (exn_text e))];
      [Lit "Could not load the data. Please check if the data folder exists."] ] /\
  maps (shown (script w s)) = [] /\
  markers_shown (shown (script w s)) = [] /\
  markdowns Sidebar (shown (script w s)) = ["---"; "### About"; about_text] /\
  outcome (script w s) = inr tt.
Proof.
  intros Hfail%read_failure_fails_load.
  rewrite (script_load_failed _ s _ Hfail), (load_data_catches _ _ Hfail).
  repeat split.
Qed.

Lemma load_failure_page_witness :
  (read_file pumps_missing shapefile_path "Cholera_Deaths" =
     inl (Exn ValueError "Layer 'Pumps' not found") \/
   (exists d, read_file pumps_missing shapefile_path "Cholera_Deaths" = inr d /\
              read_file pumps_missing shapefile_path "Pumps" =
                inl (Exn ValueError "Layer 'Pumps' not found"))) /\
  errors (shown (script pumps_missing ∅)) =
    [ [Lit "Error loading data: "; Fmt (VStr "Layer 'Pumps' not found")];
      [Lit "Could not load the data. Please check if the data folder exists."] ].
Proof.
  assert (H : read_file pumps_missing shapefile_path "Cholera_Deaths" =
                inl (Exn ValueError "Layer 'Pumps' not found") \/
              (exists d, read_file pumps_missing shapefile_path "Cholera_Deaths" = inr d /\
                 read_file pumps_missing shapefile_path "Pumps" =
                   inl (Exn ValueError "Layer 'Pumps' not found"))).
  { right. exists deaths_layer. split; reflexivity. }
  split; [exact H|].
  exact (proj1 (proj2 (load_failure_page pumps_missing ∅ _ H))).
Defined.

(** C5.  A layer that is read with the target reference system,
    EPSG:4326, is returned by the loader as it was read (no reprojection
    is asked for), so every record keeps its coordinates; and when both
    layers are read so, the load succeeds with exactly what was read. *)
Theorem already_wgs84_unchanged (w : World) (d0 p0 : GeoDataFrame) :
  read_file w shapefile_path "Cholera_Deaths" = inr d0 ->
  read_file w shapefile_path "Pumps" = inr p0 ->
  (crs d0 = Some "EPSG:4326" -> crs p0 = Some "EPSG:4326" ->
   load_data w = Run [] (inr (Some d0, Some p0))) /\
  (forall d p, outcome (load_data w) = inr (Some d, Some p) ->
     (crs d0 = Some "EPSG:4326" ->
      d = d0 /\ row_geometry <$> rows d = row_geometry <$> rows d0) /\
     (crs p0 = Some "EPSG:4326" ->
      p = p0 /\ row_geometry <$> rows p = row_geometry <$> rows p0)).
Proof.
  intros Hd Hp.
  assert (Hkeep : forall g, crs g = Some "EPSG:4326" -> to_wgs84 w g = inr g).
  { intros g Hg. unfold to_wgs84, needs_reprojection. by rewrite Hg. }
  split.
  - intros Hd0 Hp0. apply load_data_returns. unfold try_load.
    rewrite Hd, Hp. result_simpl. rewrite (Hkeep _ Hd0). result_simpl.
    by rewrite (Hkeep _ Hp0).
  - intros d p Hload%load_data_outcome. unfold try_load in Hload.
    rewrite Hd, Hp in Hload. result_simpl.
    apply bind_inr in Hload as (d' & Hd' & Hload).
    apply bind_inr in Hload as (p' & Hp' & [= <- <-]).
    split; intros Hcrs%Hkeep.
    + rewrite Hcrs in Hd'. injection Hd' as <-. by split.
    + rewrite Hcrs in Hp'. injection Hp' as <-. by split.
Qed.

(** A layer in another reference system is handed to the projection
    library, and the loader returns what that gives back. *)
Example sample_reprojection :
  outcome (load_data british_grid) =
    inr (Some (Gdf (Some "EPSG:4326")
                 [Row (row_geometry death_a) {[ "Id" := VInt 0; "Count" := VInt 3 ]}]),
         Some (Gdf (Some "EPSG:4326")
                 [Row (row_geometry broad_street_pump) {[ "Id" := VInt 0 ]}])).
Proof. vm_compute. reflexivity. Qed.

Lemma already_wgs84_unchanged_witness :
  load_data soho = Run [] (inr (Some deaths_layer, Some pumps_layer)).
Proof.
  apply (already_wgs84_unchanged soho deaths_layer pumps_layer);
    reflexivity.
Defined.

(* ===================================================================== *)
(** ** The density layer                                                   *)
(* ===================================================================== *)

Lemma Forall2_iterrows {B} (P : row -> B -> Prop) i rs (out : list B) :
  Forall2 (fun ir b => P ir.2 b) (iterrows_from i rs) out <-> Forall2 P rs out.
Proof.
  rewrite <- (iterrows_from_rows i rs) at 2. by rewrite Forall2_fmap_l.
Qed.

(** C3.  The density layer that [show_heatmap] adds has one row per death
    record, in order, and the weight of a row is the record's [Count] value
    as it stands (no scaling, no conversion), or the integer 1 for a record
    that has no [Count]. *)
Theorem heat_weight_is_raw_count (d : GeoDataFrame) (opacity radius blur : value)
    (m m' : Map) :
  add_heatmap d opacity radius blur m = inr m' ->
  exists data,
    children m' =
      children m ++ [HeatMap data (VFloat (Fin (3 # 10))) opacity radius blur gradient] /\
    Forall2 (fun r e => match row_attrs r !! "Count" with
                        | Some count => e.2 = count
                        | None => e.2 = VInt 1
                        end) (rows d) data.
Proof.
  unfold add_heatmap, new_HeatMap.
  intros (data & Hdata & H)%bind_inr.
  apply bind_inr in H as (h & H & [= <-]).
  apply bind_inr in H as (data' & ->%validate_heat_data_inr & [= <-]).
  exists data. split; [reflexivity|].
  rewrite heat_data_mapM in Hdata. apply mapM_inr in Hdata.
  apply (Forall2_iterrows _ 0). eapply Forall2_impl; [exact Hdata|].
  intros [idx r] e (lat & lon & _ & ->)%heat_row_inr. cbn [fst snd].
  unfold weight. by destruct (row_attrs r !! "Count").
Qed.

Lemma heat_weight_is_raw_count_witness :
  exists m',
    add_heatmap deaths_layer (VFloat (Fin (6 # 10))) (VInt 15) (VInt 10) blank_map
      = inr m' /\
    exists data,
      children m' =
        children blank_map ++
        [HeatMap data (VFloat (Fin (3 # 10))) (VFloat (Fin (6 # 10))) (VInt 15)
           (VInt 10) gradient] /\
      Forall2 (fun r e => match row_attrs r !! "Count" with
                          | Some count => e.2 = count
                          | None => e.2 = VInt 1
                          end) (rows deaths_layer) data.
Proof.
  eexists. split.
  - vm_compute. reflexivity.
  - apply (heat_weight_is_raw_count deaths_layer). vm_compute. reflexivity.
Defined.

(** The weights of the sample layer: 3 and 2 as recorded, 1 where the
    record has no [Count]. *)
Example sample_weights :
  (fun e : float * float * value => e.2) <$>
    match heat_data (iterrows deaths_layer) with inr data => data | inl _ => [] end
  = [VInt 3; VInt 2; VInt 1].
Proof. vm_compute. reflexivity. Qed.

(* ===================================================================== *)
(** ** Completed and aborted renders                                       *)
(* ===================================================================== *)

Lemma script_completed w s d p :
  try_load w = inr (d, p) ->
  outcome (script w s) = inr tt ->
  exists c m,
    center w d = inr c /\
    compose_map d p c (options_of s) = inr m /\
    shown (script w s) =
      shown page_head ++ shown (sidebar_controls ∅) ++ body_page d p m ++ shown footer.
Proof.
  intros Hload. rewrite (script_loaded _ s _ _ Hload).
  destruct (center w d) as [e|c]; [by intros [=]|].
  destruct (compose_map d p c (options_of s)) as [e|m] eqn:Hm; [by intros [=]|].
  intros _. by exists c, m.
Qed.

Lemma script_aborted w s d p e :
  try_load w = inr (d, p) ->
  outcome (script w s) = inl e ->
  maps (shown (script w s)) = [] /\ metrics (shown (script w s)) = [].
Proof.
  intros Hload. rewrite (script_loaded _ s _ _ Hload).
  destruct (center w d) as [e'|c]; [done|].
  destruct (compose_map d p c (options_of s)) as [e'|m]; done.
Qed.

Lemma maps_completed d p m :
  maps (shown page_head ++ shown (sidebar_controls ∅) ++ body_page d p m
        ++ shown footer) = [m].
Proof. reflexivity. Qed.

Lemma metrics_completed d p m :
  metrics (shown page_head ++ shown (sidebar_controls ∅) ++ body_page d p m
           ++ shown footer) =
  [("Total Cholera Deaths", Z.of_nat (length (rows d)));
   ("Water Pumps", Z.of_nat (length (rows p)))].
Proof. reflexivity. Qed.

(** *** The kinds of the layers *)

Lemma count_stages f m hs ss gs :
  children m =
    TileLayer "OpenStreetMap" :: hs ++ ss ++ concat gs ++ [LayerControl] ->
  f (TileLayer "OpenStreetMap") = false ->
  count f m =
    (length (filter (kind f) hs) + length (filter (kind f) ss)
     + length (filter (kind f) (concat gs))
     + length (filter (kind f) [LayerControl]))%nat.
Proof.
  unfold count. intros -> Hf. rewrite filter_cons_False by (cbn; congruence).
  rewrite !filter_app, !length_app. lia.
Qed.

Lemma heat_layers_kinds d o hs :
  heat_layers d o = inr hs ->
  Forall (kind is_heatmap) hs /\
  length hs = (if show_heatmap o then 1 else 0)%nat.
Proof.
  intros [[-> ->]|[-> (data & _ & ->)]]%heat_layers_inr; split; try done.
  by repeat constructor.
Qed.

Lemma skeleton_layers_kinds d o ss :
  skeleton_layers d o = inr ss ->
  Forall (kind is_death_marker) ss /\
  length ss = (if show_skeletons o then length (rows d) else 0)%nat.
Proof.
  unfold skeleton_layers. destruct (show_skeletons o).
  - intros H%mapM_inr. split.
    + eapply Forall2_Forall_r; [exact H|]. apply Forall_true.
      intros ir l (lat & lon & _ & _ & _ & ->)%skeleton_of_inr. done.
    + apply Forall2_length in H. rewrite <- H. apply length_iterrows_from.
  - by intros [= <-].
Qed.

Lemma pump_layers_kinds b its gs :
  mapM (pump_layers b) its = inr gs ->
  length gs = length its /\
  Forall (fun g => exists mk, is_pump_marker mk = true /\
            if b then exists lb, is_pump_label lb = true /\ g = [mk; lb]
            else g = [mk]) gs.
Proof.
  intros H%mapM_inr. split; [by apply Forall2_length in H|].
  eapply Forall2_Forall_r; [exact H|]. apply Forall_true.
  intros ir g (lat & lon & _ & _ & _ & ->)%pump_layers_inr.
  destruct b.
  - eexists. split; cycle 1.
    + eexists. split; cycle 1; reflexivity.
    + reflexivity.
  - eexists. split; cycle 1; reflexivity.
Qed.

Lemma count_other (f g : layer -> bool) (l : list layer) :
  (forall x, g x = true -> f x = false) ->
  Forall (kind g) l -> length (filter (kind f) l) = 0%nat.
Proof.
  intros Hfg Hl. apply length_filter_none.
  eapply Forall_impl; [exact Hl|]. intros x Hx%Hfg. cbn. congruence.
Qed.

Lemma pump_group_counts (b : bool) (g : list layer) :
  (exists mk, is_pump_marker mk = true /\
     if b then exists lb, is_pump_label lb = true /\ g = [mk; lb] else g = [mk]) ->
  length (filter (kind is_pump_marker) g) = 1%nat /\
  length (filter (kind is_pump_label) g) = (if b then 1 else 0)%nat /\
  length (filter (kind is_death_marker) g) = 0%nat /\
  length (filter (kind is_heatmap) g) = 0%nat.
Proof.
  intros (mk & Hmk & Hg). destruct b.
  - destruct Hg as (lb & Hlb & ->).
    destruct mk as [|? [?|] [|] ?| |]; try discriminate;
      destruct lb as [|? [|] [|] ?| |]; try discriminate; by vm_compute.
  - subst g. destruct mk as [|? [?|] [|] ?| |]; try discriminate; by vm_compute.
Qed.

(** The count of each kind of layer in a composed map. *)
Lemma compose_map_counts d p c o m :
  compose_map d p c o = inr m ->
  count is_heatmap m = (if show_heatmap o then 1 else 0)%nat /\
  count is_death_marker m = (if show_skeletons o then length (rows d) else 0)%nat /\
  count is_pump_marker m = length (rows p) /\
  count is_pump_label m = (if show_pump_labels o then length (rows p) else 0)%nat.
Proof.
  intros (hs & ss & gs & _ & Hhs & Hss & Hgs & Hm)%compose_map_inr.
  assert (Hch : children m = TileLayer "OpenStreetMap"
                             :: hs ++ ss ++ concat gs ++ [LayerControl])
    by (by rewrite Hm).
  clear Hm.
  apply heat_layers_kinds in Hhs as [Hhs Hhn].
  apply skeleton_layers_kinds in Hss as [Hss Hsn].
  apply pump_layers_kinds in Hgs as [Hgn Hgs].
  unfold iterrows in Hgn. rewrite length_iterrows_from in Hgn.
  assert (Hg : Forall (fun g =>
      length (filter (kind is_pump_marker) g) = 1%nat /\
      length (filter (kind is_pump_label) g)
        = (if show_pump_labels o then 1 else 0)%nat /\
      length (filter (kind is_death_marker) g) = 0%nat /\
      length (filter (kind is_heatmap) g) = 0%nat) gs).
  { eapply Forall_impl; [exact Hgs|]. apply pump_group_counts. }
  clear Hgs.
  assert (Hlc : forall f, f LayerControl = false ->
            length (filter (kind f) [LayerControl]) = 0%nat).
  { intros f Hf. rewrite filter_cons_False by (cbn; congruence). done. }
  rewrite !(count_stages _ _ _ _ _ Hch), !Hlc by done.
  rewrite (length_filter_all _ _ Hhs), (length_filter_all _ _ Hss).
  rewrite !(count_other _ is_heatmap hs), !(count_other _ is_death_marker ss);
    try done; try (by intros [|? [?|] [|] ?| |]).
  rewrite (length_filter_concat (kind is_heatmap) 0 gs),
    (length_filter_concat (kind is_death_marker) 0 gs),
    (length_filter_concat (kind is_pump_marker) 1 gs),
    (length_filter_concat (kind is_pump_label)
       (if show_pump_labels o then 1 else 0)%nat gs);
    try (eapply Forall_impl; [exact Hg|]; cbn; tauto).
  rewrite Hhn, Hsn, Hgn.
  repeat split; try lia. destruct (show_pump_labels o); lia.
Qed.

(* ===================================================================== *)
(** ** Markers and records                                                 *)
(* ===================================================================== *)

(** Whenever the render completes, the one map it shows has a death
    marker for each death record when "Show Skeleton Markers" is on (none
    when it is off) and a pump marker for each pump record. *)
Lemma completed_marker_counts w s d p :
  try_load w = inr (d, p) ->
  outcome (script w s) = inr tt ->
  exists m,
    maps (shown (script w s)) = [m] /\
    count is_death_marker m =
      (if checkbox_state s "Show Skeleton Markers" true
       then length (rows d) else 0)%nat /\
    count is_pump_marker m = length (rows p).
Proof.
  intros Hload Hdone.
  destruct (script_completed _ _ _ _ Hload Hdone) as (c & m & _ & Hm & ->).
  exists m. split; [apply maps_completed|].
  destruct (compose_map_counts _ _ _ _ _ Hm) as (_ & Hdeaths & Hpumps & _).
  by cbn [options_of show_skeletons] in Hdeaths.
Qed.

(** C2, at two datasets whose every record exposes a resolvable point.
    With a deaths layer that has no record the centre is NaN, [folium.Map]
    raises, and the page shows no map and no marker for the two pump
    records.  With a death record drawn as a coordinate sequence the
    centre's [.geometry.y] raises, although the marker loops would resolve
    the record; again the page shows no marker (the claim expects one death
    marker and two pump markers). *)
Lemma markers_missing_for_resolvable_records :
  (outcome (load_data no_deaths) =
     inr (Some (Gdf (Some "EPSG:4326") []), Some pumps_layer) /\
   (lat_lon <$> (row_geometry <$> rows pumps_layer)) =
     [inr (Fin (51513341 # 1000000), Fin (-136668 # 1000000));
      inr (Fin (51513876 # 1000000), Fin (-139586 # 1000000))] /\
   checkbox_state ∅ "Show Skeleton Markers" true = true /\
   outcome (script no_deaths ∅) =
     inl (Exn ValueError "Location values cannot contain NaNs.") /\
   maps (shown (script no_deaths ∅)) = [] /\
   markers_shown (shown (script no_deaths ∅)) = []) /\
  (exists deaths,
     outcome (load_data deaths_as_sequences) =
       inr (Some deaths, Some pumps_layer) /\
     (lat_lon <$> (row_geometry <$> rows deaths)) =
       [inr (Fin (51513418 # 1000000), Fin (-137930 # 1000000))] /\
     (exists e,
        outcome (script deaths_as_sequences ∅) = inl e /\
        exn_type e = ValueError) /\
     maps (shown (script deaths_as_sequences ∅)) = [] /\
     markers_shown (shown (script deaths_as_sequences ∅)) = []).
Proof.
  split.
  - vm_compute. repeat split.
  - eexists. split; [reflexivity|]. split; [reflexivity|].
    split; [eexists; split; reflexivity|]. split; reflexivity.
Qed.

(* ===================================================================== *)
(** ** The order of the layers                                             *)
(* ===================================================================== *)

Lemma pump_layers_group b ir g :
  pump_layers b ir = inr g <->
  exists loc mk,
    lat_lon (row_geometry ir.2) = inr loc /\
    pump_marker loc ir.1 = inr mk /\
    if b then exists lb, pump_label loc ir.1 = inr lb /\ g = [mk; lb]
    else g = [mk].
Proof.
  unfold pump_layers. rewrite bind_inr. split.
  - intros ([lat lon] & Hloc & (mk & Hmk & Hg)%bind_inr).
    exists (lat, lon), mk. do 2 (split; [done|]). destruct b.
    + apply bind_inr in Hg as (lb & Hlb & [= <-]). by exists lb.
    + by injection Hg as <-.
  - intros ([lat lon] & mk & Hloc & Hmk & Hg). exists (lat, lon).
    split; [done|]. rewrite Hmk. result_simpl. destruct b.
    + destruct Hg as (lb & -> & ->). done.
    + by subst g.
Qed.

(** C8.  In every completed render the page embeds one map whose layers
    stand in this order, after the tile layer the map is created with:
    the density layer over the death records (if
    "Show Heatmap" is on; one weighted row per death record), then one
    marker per death record in record order (if "Show Skeleton Markers" is
    on), then for each pump record in record order its marker followed by
    its label (the label if "Show Pump Labels" is on), then the layer
    control.  The order of the children is the order in which the map
    library draws them. *)
Theorem layer_order (w : World) (s : session) (d p : GeoDataFrame) :
  outcome (load_data w) = inr (Some d, Some p) ->
  outcome (script w s) = inr tt ->
  exists m hs ss gs,
    maps (shown (script w s)) = [m] /\
    children m =
      TileLayer "OpenStreetMap" :: hs ++ ss ++ concat gs ++ [LayerControl] /\
    (if checkbox_state s "Show Heatmap" true
     then exists data,
       hs = [HeatMap data (VFloat (Fin (3 # 10)))
               (heatmap_opacity (options_of s)) (heatmap_radius (options_of s))
               (heatmap_blur (options_of s)) gradient] /\
       Forall2 (fun r e => exists lat lon,
                  lat_lon (row_geometry r) = inr (lat, lon) /\
                  e = (lat, lon, weight r)) (rows d) data
     else hs = []) /\
    (if checkbox_state s "Show Skeleton Markers" true
     then Forall2 (fun ir l => skeleton_marker ir.1 ir.2 = inr l) (iterrows d) ss
     else ss = []) /\
    Forall2 (fun ir g => exists loc mk,
               lat_lon (row_geometry ir.2) = inr loc /\
               pump_marker loc ir.1 = inr mk /\
               if checkbox_state s "Show Pump Labels" true
               then exists lb, pump_label loc ir.1 = inr lb /\ g = [mk; lb]
               else g = [mk]) (iterrows p) gs.
Proof.
  intros Hload%load_data_outcome Hdone.
  destruct (script_completed _ _ _ _ Hload Hdone) as (c & m & Hc & Hm & ->).
  apply compose_map_inr in Hm as (hs & ss & gs & _ & Hhs & Hss & Hgs & Hm).
  exists m, hs, ss, gs. split; [apply maps_completed|].
  split; [by rewrite Hm|]. split; [|split].
  - change (checkbox_state s "Show Heatmap" true) with (show_heatmap (options_of s)).
    apply heat_layers_inr in Hhs as [[-> ->]|[-> (data & Hdata & ->)]]; [done|].
    exists data. split; [done|]. apply mapM_inr in Hdata.
    apply (Forall2_iterrows _ 0). eapply Forall2_impl; [exact Hdata|].
    by intros ir e ?%heat_row_inr.
  - change (checkbox_state s "Show Skeleton Markers" true)
      with (show_skeletons (options_of s)).
    unfold skeleton_layers in Hss. destruct (show_skeletons (options_of s)).
    + by apply mapM_inr in Hss.
    + by injection Hss as <-.
  - apply mapM_inr in Hgs. eapply Forall2_impl; [exact Hgs|].
    by intros ir g ?%pump_layers_group.
Qed.

Lemma layer_order_witness :
  exists m hs ss gs,
    maps (shown (script soho ∅)) = [m] /\
    children m =
      TileLayer "OpenStreetMap" :: hs ++ ss ++ concat gs ++ [LayerControl] /\
    (if checkbox_state ∅ "Show Heatmap" true
     then exists data,
       hs = [HeatMap data (VFloat (Fin (3 # 10)))
               (heatmap_opacity (options_of ∅)) (heatmap_radius (options_of ∅))
               (heatmap_blur (options_of ∅)) gradient] /\
       Forall2 (fun r e => exists lat lon,
                  lat_lon (row_geometry r) = inr (lat, lon) /\
                  e = (lat, lon, weight r)) (rows deaths_layer) data
     else hs = []) /\
    (if checkbox_state ∅ "Show Skeleton Markers" true
     then Forall2 (fun ir l => skeleton_marker ir.1 ir.2 = inr l)
            (iterrows deaths_layer) ss
     else ss = []) /\
    Forall2 (fun ir g => exists loc mk,
               lat_lon (row_geometry ir.2) = inr loc /\
               pump_marker loc ir.1 = inr mk /\
               if checkbox_state ∅ "Show Pump Labels" true
               then exists lb, pump_label loc ir.1 = inr lb /\ g = [mk; lb]
               else g = [mk]) (iterrows pumps_layer) gs.
Proof.
  apply (layer_order soho ∅ deaths_layer pumps_layer); reflexivity.
Defined.

(** The kinds of the layers of the sample render, in order: the tiles,
    the density layer, three death markers, two pumps each with its label,
    the control. *)
Example sample_layer_kinds :
  (fun m => (fun l => (is_heatmap l, is_death_marker l, is_pump_marker l,
                       is_pump_label l)) <$> children m)
    <$> maps (shown (script soho ∅))
  = [[(false, false, false, false);
      (true, false, false, false);
      (false, true, false, false); (false, true, false, false);
      (false, true, false, false);
      (false, false, true, false); (false, false, false, true);
      (false, false, true, false); (false, false, false, true);
      (false, false, false, false)]].
Proof. vm_compute. reflexivity. Qed.

(* ===================================================================== *)
(** ** Toggling the heatmap                                                *)
(* ===================================================================== *)

Lemma options_of_toggle (s : session) (b : bool) :
  options_of (<["Show Heatmap" := VBool b]> s) =
  Options b (show_skeletons (options_of s)) (show_pump_labels (options_of s))
          (heatmap_radius (options_of s)) (heatmap_blur (options_of s))
          (heatmap_opacity (options_of s)).
Proof.
  unfold options_of, checkbox_state, slider_state. cbn [show_skeletons
    show_pump_labels heatmap_radius heatmap_blur heatmap_opacity].
  rewrite lookup_insert_eq, !lookup_insert_ne by done. reflexivity.
Qed.

Lemma filter_all {A} (P : A -> Prop) `{forall a, Decision (P a)} l :
  Forall P l -> filter P l = l.
Proof.
  induction 1 as [|a l Ha _ IH]; [done|].
  by rewrite filter_cons_True, IH.
Qed.

Lemma no_heatmap_after_density d o ss b its gs :
  skeleton_layers d o = inr ss ->
  mapM (pump_layers b) its = inr gs ->
  Forall (fun l => is_heatmap l = false) (ss ++ concat gs ++ [LayerControl]).
Proof.
  intros [Hss _]%skeleton_layers_kinds [_ Hgs]%pump_layers_kinds.
  rewrite !Forall_app. split; [|split].
  - eapply Forall_impl; [exact Hss|]. by intros [|? [?|] [|] ?| |].
  - apply Forall_concat. eapply Forall_impl; [exact Hgs|].
    intros g (mk & Hmk & Hg). destruct b.
    + destruct Hg as (lb & Hlb & ->).
      repeat constructor; [by destruct mk|by destruct lb].
    + subst g. repeat constructor. by destruct mk.
  - by repeat constructor.
Qed.

(** C6.  Take any loaded dataset and any selection of the other options.
    If the render with "Show Heatmap" on completes, the render with it off
    completes too, and its page is the same page with the density layer
    taken out of the map: the map with the heatmap on has that one density
    layer right after its tile layer, followed by exactly the layers (death
    markers, pump markers, pump labels, control) that follow the tile layer
    of the map with it off. *)
Theorem heatmap_toggle (w : World) (s : session) (d p : GeoDataFrame) :
  outcome (load_data w) = inr (Some d, Some p) ->
  outcome (script w (<["Show Heatmap" := VBool true]> s)) = inr tt ->
  outcome (script w (<["Show Heatmap" := VBool false]> s)) = inr tt /\
  shown (script w (<["Show Heatmap" := VBool false]> s)) =
    on_map without_heatmap <$> shown (script w (<["Show Heatmap" := VBool true]> s)) /\
  exists m_on m_off h rest,
    maps (shown (script w (<["Show Heatmap" := VBool true]> s))) = [m_on] /\
    maps (shown (script w (<["Show Heatmap" := VBool false]> s))) = [m_off] /\
    is_heatmap h = true /\
    children m_on = TileLayer "OpenStreetMap" :: h :: rest /\
    children m_off = TileLayer "OpenStreetMap" :: rest /\
    count is_heatmap m_off = 0%nat /\
    count is_death_marker m_off = count is_death_marker m_on /\
    count is_pump_marker m_off = count is_pump_marker m_on /\
    count is_pump_label m_off = count is_pump_label m_on.
Proof.
  intros Hload%load_data_outcome Hdone.
  destruct (script_completed _ _ _ _ Hload Hdone) as (c & m & Hc & Hm & Hpage).
  rewrite Hpage. clear Hpage Hdone.
  rewrite (script_loaded _ _ _ _ Hload), Hc.
  rewrite options_of_toggle in *.
  set (o := options_of s) in *.
  assert (Hm_on := Hm).
  apply compose_map_inr in Hm as (hs & ss & gs & Hloc & Hhs & Hss & Hgs & Hm).
  apply heat_layers_inr in Hhs as [[[=] _]|[_ (data & _ & ->)]].
  cbn [show_pump_labels] in Hgs.
  set (h := HeatMap _ _ _ _ _ _) in *.
  assert (Hrest := no_heatmap_after_density _ _ _ _ _ _ Hss Hgs).
  set (rest := ss ++ concat gs ++ [LayerControl]) in *.
  assert (Hoff : compose_map d p c
            (Options false (show_skeletons o) (show_pump_labels o)
               (heatmap_radius o) (heatmap_blur o) (heatmap_opacity o))
          = inr (without_heatmap m)).
  { rewrite compose_map_layers, Hloc. unfold heat_layers. cbn [show_heatmap].
    change (skeleton_layers d (Options false _ _ _ _ _)) with
      (skeleton_layers d (Options true (show_skeletons o) (show_pump_labels o)
         (heatmap_radius o) (heatmap_blur o) (heatmap_opacity o))).
    cbn [show_pump_labels]. rewrite Hss, Hgs. result_simpl.
    rewrite Hm. unfold without_heatmap. cbn [location zoom_start tiles width height children].
    change ([] ++ ss ++ concat gs ++ [LayerControl]) with rest.
    change ([h] ++ rest) with (h :: rest).
    rewrite filter_cons_True by done.
    rewrite filter_cons_False by (cbn; congruence). by rewrite filter_all. }
  rewrite Hoff. split; [reflexivity|]. split; [reflexivity|].
  exists m, (without_heatmap m), h, rest.
  assert (Hon : children m = TileLayer "OpenStreetMap" :: h :: rest)
    by (by rewrite Hm).
  assert (Hch : children (without_heatmap m) = TileLayer "OpenStreetMap" :: rest).
  { unfold without_heatmap. cbn [children]. rewrite Hon.
    rewrite filter_cons_True by done.
    rewrite filter_cons_False by (cbn; congruence). by rewrite filter_all. }
  destruct (compose_map_counts _ _ _ _ _ Hm_on) as (_ & Hd_on & Hp_on & Hl_on).
  destruct (compose_map_counts _ _ _ _ _ Hoff) as (Hh_off & Hd_off & Hp_off & Hl_off).
  cbn [show_heatmap show_skeletons show_pump_labels] in *.
  repeat split; try done; congruence.
Qed.

Lemma heatmap_toggle_witness :
  shown (script soho (<["Show Heatmap" := VBool false]> ∅)) =
    on_map without_heatmap <$> shown (script soho (<["Show Heatmap" := VBool true]> ∅)).
Proof.
  apply (heatmap_toggle soho ∅ deaths_layer pumps_layer); reflexivity.
Defined.

(* ===================================================================== *)
(** ** The centre of the map and the statistics panel                      *)
(* ===================================================================== *)



(** A loaded deaths layer with no record: the centre is NaN, the map
    library refuses it, and the script ends there. *)
Lemma empty_deaths_abort w s d p :
  try_load w = inr (d, p) -> rows d = [] ->
  center w d = inr (NaN, NaN) /\
  outcome (script w s) = inl (Exn ValueError "Location values cannot contain NaNs.") /\
  shown (script w s) = shown page_head ++ shown (sidebar_controls ∅).
Proof.
  intros Hload Hd.
  assert (Hc : center w d = inr (NaN, NaN)).
  { unfold center, geometry_x, geometry_y. by rewrite Hd. }
  rewrite (script_loaded _ s _ _ Hload), Hc, compose_map_layers. done.
Qed.

(** C7, at a deaths layer that loads and has no record.  The statistics
    panel is never reached: the centre is NaN, [folium.Map] raises, and the
    page shows no metric at all (the claim expects the counts 0 and 2). *)
Lemma statistics_missing_without_deaths :
  outcome (load_data no_deaths) =
    inr (Some (Gdf (Some "EPSG:4326") []), Some pumps_layer) /\
  center no_deaths (Gdf (Some "EPSG:4326") []) = inr (NaN, NaN) /\
  outcome (script no_deaths ∅) =
    inl (Exn ValueError "Location values cannot contain NaNs.") /\
  metrics (shown (script no_deaths ∅)) = [] /\
  maps (shown (script no_deaths ∅)) = [].
Proof. vm_compute. repeat split. Qed.

(** Whenever the render completes, the statistics panel shows exactly two
    counts: the number of death records and the number of pump records. *)
Lemma statistics_panel_counts w s d p :
  try_load w = inr (d, p) ->
  outcome (script w s) = inr tt ->
  metrics (shown (script w s)) =
    [("Total Cholera Deaths", Z.of_nat (length (rows d)));
     ("Water Pumps", Z.of_nat (length (rows p)))].
Proof.
  intros Hload Hdone.
  destruct (script_completed _ _ _ _ Hload Hdone) as (c & m & _ & _ & ->).
  apply metrics_completed.
Qed.

(* ===================================================================== *)
(** ** The sidebar controls                                                *)
(* ===================================================================== *)

Lemma slider_int_in_range (s : session) label lo hi def :
  lo <= def <= hi ->
  exists z, slider_state s label (VInt lo) (VInt hi) (VInt def) = VInt z /\
            lo <= z <= hi.
Proof.
  intros Hdef. unfold slider_state.
  destruct (s !! label) as [[z|f| | |]|]; cbn;
    try (exists def; split; [reflexivity|lia]).
  destruct ((lo <=? z) && (z <=? hi)) eqn:Hz.
  - apply andb_prop in Hz as [?%Z.leb_le ?%Z.leb_le]. by exists z.
  - exists def. split; [reflexivity|lia].
Qed.

Lemma slider_float_in_range (s : session) label (lo hi def : Q) :
  (lo <= def)%Q -> (def <= hi)%Q ->
  exists q, slider_state s label (VFloat (Fin lo)) (VFloat (Fin hi))
              (VFloat (Fin def)) = VFloat (Fin q) /\
            (lo <= q)%Q /\ (q <= hi)%Q.
Proof.
  intros Hlo Hhi. unfold slider_state.
  destruct (s !! label) as [[z|[q|?|]| | |]|]; cbn;
    try (exists def; split; [reflexivity|by split]).
  destruct (Qle_bool lo q && Qle_bool q hi) eqn:Hq.
  - apply andb_prop in Hq as [?%Qle_bool_iff ?%Qle_bool_iff]. by exists q.
  - by exists def.
Qed.

(** C9.  The option collector shows exactly six input widgets: the three
    checkboxes "Show Heatmap", "Show Skeleton Markers" and "Show Pump
    Labels", each on by default, and the three sliders "Heatmap Radius"
    (10 to 30, default 15), "Heatmap Blur" (5 to 20, default 10) and
    "Heatmap Opacity" (0.1 to 1.0, default 0.6).  What it returns lies
    within those bounds, is the defaults in a fresh session, and reaches
    the density layer as returned: the script checks nothing further.
    The page has no other input widget. *)
Theorem option_collector (s : session) :
  widgets (shown (sidebar_controls s)) =
    [ checkbox "Show Heatmap" true;
      checkbox "Show Skeleton Markers" true;
      checkbox "Show Pump Labels" true;
      slider "Heatmap Radius" (VInt 10) (VInt 30) (VInt 15);
      slider "Heatmap Blur" (VInt 5) (VInt 20) (VInt 10);
      slider "Heatmap Opacity" (VFloat (Fin (1 # 10))) (VFloat (Fin 1))
        (VFloat (Fin (6 # 10))) ] /\
  (exists o,
     outcome (sidebar_controls s) = inr o /\
     (exists r, heatmap_radius o = VInt r /\ 10 <= r <= 30) /\
     (exists b, heatmap_blur o = VInt b /\ 5 <= b <= 20) /\
     (exists q, heatmap_opacity o = VFloat (Fin q) /\
                (1 # 10 <= q)%Q /\ (q <= 1)%Q) /\
     (forall d p c m,
        compose_map d p c o = inr m -> show_heatmap o = true ->
        exists data,
          children m !! 1%nat =
            Some (HeatMap data (VFloat (Fin (3 # 10))) (heatmap_opacity o)
                    (heatmap_radius o) (heatmap_blur o) gradient))) /\
  outcome (sidebar_controls ∅) =
    inr (Options true true true (VInt 15) (VInt 10) (VFloat (Fin (6 # 10)))) /\
  (forall w,
     widgets (shown (script w s)) = [] \/
     widgets (shown (script w s)) = widgets (shown (sidebar_controls s))).
Proof.
  split; [reflexivity|]. split; [|split; [reflexivity|]]; cycle 1.
  { intros w. destruct (try_load w) as [e|[d p]] eqn:Hload.
    - left. by rewrite (script_load_failed _ s _ Hload).
    - rewrite (script_loaded _ s _ _ Hload).
      destruct (center w d) as [e|c]; [by left|].
      destruct (compose_map d p c (options_of s)) as [e|m]; by right. }
  exists (options_of s). split; [reflexivity|].
  split; [by apply slider_int_in_range|].
  split; [by apply slider_int_in_range|].
  split; [by apply slider_float_in_range|].
  intros d p c m (hs & ss & gs & _ & Hhs & _ & _ & Hm)%compose_map_inr Hon.
  apply heat_layers_inr in Hhs as [[Hoff _]|[_ (data & _ & ->)]]; [congruence|].
  exists data. by rewrite Hm.
Qed.

(** A setting outside a slider's bounds gives way to the default; one
    inside is returned as set. *)
Example sample_slider_settings :
  heatmap_radius (options_of {[ "Heatmap Radius" := VInt 99 ]}) = VInt 15 /\
  heatmap_blur (options_of {[ "Heatmap Blur" := VInt 7 ]}) = VInt 7 /\
  show_pump_labels (options_of {[ "Show Pump Labels" := VBool false ]}) = false.
Proof. vm_compute. repeat split. Qed.

(* ===================================================================== *)
(** ** Geometry access                                                     *)
(* ===================================================================== *)

Lemma unresolvable_fails {B} (f : Z * row -> result B) its :
  (forall ir, unresolvable ir.2 -> exists e, f ir = inl e) ->
  Exists (fun ir => unresolvable ir.2) its ->
  forall out, mapM f its <> inr out.
Proof.
  intros Hf Hex out Hout.
  assert (exists e, mapM f its = inl e) as [e He].
  { apply mapM_inl. eapply Exists_impl; [exact Hex|]. exact Hf. }
  congruence.
Qed.

Lemma unresolvable_heat_row ir : unresolvable ir.2 -> exists e, heat_row ir = inl e.
Proof. intros [e He]. exists e. unfold heat_row. by rewrite He. Qed.

Lemma unresolvable_skeleton ir : unresolvable ir.2 -> exists e, skeleton_of ir = inl e.
Proof.
  intros [e He]. exists e. unfold skeleton_of, skeleton_marker. by rewrite He.
Qed.

Lemma unresolvable_pump b ir : unresolvable ir.2 -> exists e, pump_layers b ir = inl e.
Proof. intros [e He]. exists e. unfold pump_layers. by rewrite He. Qed.

(** C4, as the specification states it, fails: one pump record that
    exposes neither access shape does not fail alone.  Every other record
    of the sample resolves, and yet the script ends with the
    [AttributeError] and the page has no map at all. *)
Lemma one_unresolvable_record_stops_the_render :
  Forall plottable (rows deaths_layer) /\
  plottable broad_street_pump /\
  unresolvable broken_pump /\
  outcome (script one_broken_pump ∅) = inl (no_attribute "coords") /\
  ~ (exists m, m ∈ maps (shown (script one_broken_pump ∅))).
Proof.
  split; [|split; [|split; [|split]]].
  - repeat constructor; eexists _, _; repeat split.
  - eexists _, _; repeat split.
  - eexists; reflexivity.
  - vm_compute. reflexivity.
  - intros [m Hm]. vm_compute in Hm. by apply elem_of_nil in Hm.
Qed.

(** C4, amended.  Each loop resolves the location of a record in the same
    way: by the [x]/[y] accessors when the geometry has both, otherwise by
    the first entry of its coordinate sequence, and one of the two has to
    succeed.  A geometry that exposes neither (no accessors and no
    coordinate sequence, an empty one, or a first entry with fewer than
    two coordinates) raises; nothing catches that, so when a loop reaches
    such a record (the pump loop always, a death loop when the heatmap or
    the death markers are on) the whole render is aborted: the page shows
    no map and no statistics. *)
Theorem geometry_access :
  (forall g x y,
     g ≫= attr_x = Some x -> g ≫= attr_y = Some y -> lat_lon g = inr (y, x)) /\
  (forall g x y rest cs,
     has_xy g = false ->
     g ≫= attr_coords = Some ((x :: y :: rest) :: cs) ->
     lat_lon g = inr (y, x)) /\
  (forall g,
     has_xy g = false ->
     (forall x y rest cs, g ≫= attr_coords <> Some ((x :: y :: rest) :: cs)) ->
     exists e, lat_lon g = inl e) /\
  (forall w s d p,
     outcome (load_data w) = inr (Some d, Some p) ->
     Exists unresolvable (rows p) \/
     ((show_heatmap (options_of s) || show_skeletons (options_of s)) = true /\
      Exists unresolvable (rows d)) ->
     (exists e, outcome (script w s) = inl e) /\
     maps (shown (script w s)) = [] /\
     metrics (shown (script w s)) = []).
Proof.
  split; [|split; [|split]].
  - intros [[gx gy cs]|] x y; cbn; [|done]. by intros -> ->.
  - intros g x y rest cs Hxy Hcs. unfold lat_lon, coords_0, get_coords.
    by rewrite Hxy, Hcs.
  - intros g Hxy Hcs. unfold lat_lon, coords_0, get_coords. rewrite Hxy.
    destruct (g ≫= attr_coords) as [[|[|x [|y rest]] cs]|]; try (by eexists).
    by destruct (Hcs x y rest cs).
  - intros w s d p Hload%load_data_outcome Hbad.
    assert (exists e, outcome (script w s) = inl e) as [e He].
    { rewrite (script_loaded _ s _ _ Hload).
      destruct (center w d) as [e|c]; [by eexists|].
      destruct (compose_map d p c (options_of s)) as [e|m] eqn:Hm; [by eexists|].
      exfalso.
      apply compose_map_inr in Hm as (hs & ss & gs & _ & Hhs & Hss & Hgs & _).
      destruct Hbad as [Hp|[Hon Hd]].
      - apply (Exists_iterrows_from _ 0) in Hp.
        by apply (unresolvable_fails _ _
                    (unresolvable_pump (show_pump_labels (options_of s))) Hp gs).
      - apply (Exists_iterrows_from _ 0) in Hd.
        apply orb_true_iff in Hon as [Hon|Hon].
        + apply heat_layers_inr in Hhs as [[Hoff _]|[_ (data & Hdata & _)]];
            [congruence|].
          by apply (unresolvable_fails _ _ unresolvable_heat_row Hd data).
        + unfold skeleton_layers in Hss. rewrite Hon in Hss.
          by apply (unresolvable_fails _ _ unresolvable_skeleton Hd ss). }
    split; [by exists e|]. by apply (script_aborted _ _ _ _ e Hload).
Qed.

(** Both access shapes on the sample pumps: the Broad Street pump is
    resolved by its accessors, the Crown Chapel pump by its coordinate
    sequence, as (latitude, longitude). *)
Example sample_pump_locations :
  lat_lon (row_geometry broad_street_pump)
    = inr (Fin (51513341 # 1000000), Fin (-136668 # 1000000)) /\
  lat_lon (row_geometry crown_chapel_pump)
    = inr (Fin (51513876 # 1000000), Fin (-139586 # 1000000)).
Proof. split; reflexivity. Qed.

(* ===================================================================== *)
(** ** More on the loader                                                  *)
(* ===================================================================== *)

Lemma to_wgs84_cases w g :
  (crs g = None -> to_wgs84 w g = inr g) /\
  (crs g = Some "EPSG:4326" -> to_wgs84 w g = inr g) /\
  (forall c, crs g = Some c -> c <> "EPSG:4326" ->
     to_wgs84 w g = to_crs w g "EPSG:4326").
Proof.
  unfold to_wgs84, needs_reprojection. split; [|split].
  - by intros ->.
  - by intros ->.
  - intros c -> Hc. apply String.eqb_neq in Hc. unfold WGS84. by rewrite Hc.
Qed.

Lemma to_wgs84_fails w g e :
  to_wgs84 w g = inl e ->
  exists c, crs g = Some c /\ c <> "EPSG:4326" /\ to_crs w g "EPSG:4326" = inl e.
Proof.
  unfold to_wgs84, needs_reprojection.
  destruct (crs g) as [c|]; [|done].
  destruct (String.eqb c WGS84) eqn:Hc; [done|].
  apply String.eqb_neq in Hc. intros He. by exists c.
Qed.

(** X1.  [load_data] never raises and never returns one layer without the
    other.  It returns both layers and shows nothing exactly when the four
    steps of its [try] succeed (read deaths, read pumps, bring deaths to
    EPSG:4326, bring pumps to EPSG:4326); otherwise it returns
    [(None, None)] and shows one error box that carries the text of the
    first step that failed, in that order. *)
Theorem load_data_all_or_nothing (w : World) :
  (exists d0 p0 d p,
     read_file w shapefile_path "Cholera_Deaths" = inr d0 /\
     read_file w shapefile_path "Pumps" = inr p0 /\
     to_wgs84 w d0 = inr d /\ to_wgs84 w p0 = inr p /\
     load_data w = Run [] (inr (Some d, Some p))) \/
  (exists e,
     first_failure w e /\
     load_data w =
       Run [(Main, error [Lit "Error loading data: "; Fmt (VStr (exn_text e))])]
           (inr (None, None))).
Proof.
  unfold load_data, try_load.
  destruct (read_file w shapefile_path "Cholera_Deaths") as [e|d0] eqn:Hd.
  { right. exists e. split; [by apply deaths_unreadable|done]. }
  destruct (read_file w shapefile_path "Pumps") as [e|p0] eqn:Hp.
  { right. exists e. split; [by eapply pumps_unreadable|done]. }
  result_simpl.
  destruct (to_wgs84 w d0) as [e|d] eqn:Hd'.
  { right. exists e. split; [|done].
    destruct (to_wgs84_fails _ _ _ Hd') as (c & ? & ? & ?).
    by eapply deaths_not_reprojected. }
  destruct (to_wgs84 w p0) as [e|p] eqn:Hp'.
  { right. exists e. split; [|done].
    destruct (to_wgs84_fails _ _ _ Hp') as (c & ? & ? & ?).
    by eapply pumps_not_reprojected. }
  left. by exists d0, p0, d, p.
Qed.

(** X2.  A layer read with a reference system other than EPSG:4326 is
    handed to [to_crs] with the target 'EPSG:4326' and the loader returns
    what that gives back, as it is; a layer read with no reference system
    is returned as read, without reprojection.  Each layer is treated on
    its own. *)
Theorem reprojection_per_layer (w : World) (d0 p0 d p : GeoDataFrame) :
  read_file w shapefile_path "Cholera_Deaths" = inr d0 ->
  read_file w shapefile_path "Pumps" = inr p0 ->
  outcome (load_data w) = inr (Some d, Some p) ->
  (forall c, crs d0 = Some c -> c <> "EPSG:4326" ->
     to_crs w d0 "EPSG:4326" = inr d) /\
  (crs d0 = None -> d = d0) /\
  (forall c, crs p0 = Some c -> c <> "EPSG:4326" ->
     to_crs w p0 "EPSG:4326" = inr p) /\
  (crs p0 = None -> p = p0).
Proof.
  intros Hd Hp Hload%load_data_outcome. unfold try_load in Hload.
  rewrite Hd, Hp in Hload. result_simpl.
  apply bind_inr in Hload as (d' & Hd' & Hload).
  apply bind_inr in Hload as (p' & Hp' & [= <- <-]).
  destruct (to_wgs84_cases w d0) as (Hdn & _ & Hdc).
  destruct (to_wgs84_cases w p0) as (Hpn & _ & Hpc).
  repeat split.
  - intros c Hc Hne. by rewrite <- (Hdc c Hc Hne).
  - intros Hc. rewrite (Hdn Hc) in Hd'. by injection Hd'.
  - intros c Hc Hne. by rewrite <- (Hpc c Hc Hne).
  - intros Hc. rewrite (Hpn Hc) in Hp'. by injection Hp'.
Qed.

Lemma reprojection_per_layer_witness :
  to_crs british_grid
    (Gdf (Some "EPSG:27700")
       [Row (point 529308 181031) {[ "Id" := VInt 0; "Count" := VInt 3 ]}])
    "EPSG:4326"
  = inr (Gdf (Some "EPSG:4326")
           [Row (row_geometry death_a) {[ "Id" := VInt 0; "Count" := VInt 3 ]}]).
Proof.
  refine (proj1 (reprojection_per_layer british_grid _
                   (Gdf (Some "EPSG:27700")
                      [Row (point 529396 181025) {[ "Id" := VInt 0 ]}])
                   _
                   (Gdf (Some "EPSG:4326")
                      [Row (row_geometry broad_street_pump) {[ "Id" := VInt 0 ]}])
                   _ _ _) "EPSG:27700" _ _).
  - vm_compute. reflexivity.
  - vm_compute. reflexivity.
  - vm_compute. reflexivity.
  - reflexivity.
  - discriminate.
Defined.

(* ===================================================================== *)
(** ** What a page can look like                                           *)
(* ===================================================================== *)

(** X4.  The sidebar "About" text is rendered exactly when the script ends
    normally (after a completed render or after a failed load).  When an
    exception of the render goes uncaught, the data had been loaded, and
    the page has no "About" text, no error box, no map and no statistics. *)
Theorem about_text_iff_normal_end (w : World) (s : session) :
  (outcome (script w s) = inr tt ->
   markdowns Sidebar (shown (script w s)) = ["---"; "### About"; about_text]) /\
  (forall e, outcome (script w s) = inl e ->
     (exists d p, outcome (load_data w) = inr (Some d, Some p)) /\
     markdowns Sidebar (shown (script w s)) = [] /\
     errors (shown (script w s)) = [] /\
     maps (shown (script w s)) = [] /\
     metrics (shown (script w s)) = []).
Proof.
  destruct (try_load w) as [e0|[d p]] eqn:Hload.
  - rewrite (script_load_failed _ s _ Hload). split; [done|]. by intros e [=].
  - rewrite (script_loaded _ s _ _ Hload).
    assert (exists d p, outcome (load_data w) = inr (Some d, Some p)) as Hl
      by (exists d, p; by apply load_data_outcome).
    destruct (center w d) as [e0|c]; [split; [by intros [=]|done]|].
    destruct (compose_map d p c (options_of s)) as [e0|m];
      [split; [by intros [=]|done]|].
    split; [done|]. by intros e [=].
Qed.

(** X5.  Error boxes are shown for a failed load and for nothing else: the
    page has no error box exactly when [load_data] returned both layers. *)
Theorem error_boxes_iff_load_failed (w : World) (s : session) :
  errors (shown (script w s)) = [] <->
  exists d p, outcome (load_data w) = inr (Some d, Some p).
Proof.
  destruct (try_load w) as [e0|[d p]] eqn:Hload.
  - rewrite (script_load_failed _ s _ Hload). split; [done|].
    intros (d & p & H%load_data_outcome). congruence.
  - split.
    + intros _. exists d, p. by apply load_data_outcome.
    + intros _. rewrite (script_loaded _ s _ _ Hload).
      destruct (center w d) as [e0|c]; [done|].
      by destruct (compose_map d p c (options_of s)) as [e0|m].
Qed.

(** X6.  The map and the statistics come together or not at all: a page
    embeds at most one map, it embeds one exactly when the data was loaded
    and the script ended normally, and it shows the two metrics exactly
    when it embeds a map. *)
Theorem map_and_statistics_together (w : World) (s : session) :
  ((exists m, maps (shown (script w s)) = [m]) <->
   (exists d p, outcome (load_data w) = inr (Some d, Some p)) /\
   outcome (script w s) = inr tt) /\
  (maps (shown (script w s)) = [] \/ exists m, maps (shown (script w s)) = [m]) /\
  length (metrics (shown (script w s))) =
    (2 * length (maps (shown (script w s))))%nat.
Proof.
  destruct (try_load w) as [e0|[d p]] eqn:Hload.
  - rewrite (script_load_failed _ s _ Hload). split; [|split; [by left|done]].
    split; [by intros [m [=]]|].
    intros [(d & p & H%load_data_outcome) _]. congruence.
  - assert (exists d p, outcome (load_data w) = inr (Some d, Some p)) as Hl
      by (exists d, p; by apply load_data_outcome).
    rewrite (script_loaded _ s _ _ Hload).
    destruct (center w d) as [e0|c].
    { split; [|split; [by left|done]].
      split; [by intros [m [=]]|by intros [_ [=]]]. }
    destruct (compose_map d p c (options_of s)) as [e0|m].
    { split; [|split; [by left|done]].
      split; [by intros [m [=]]|by intros [_ [=]]]. }
    split; [|split; [right; by exists m|done]].
    split; [done|]. intros _. by exists m.
Qed.

(* ===================================================================== *)
(** ** What the markers say                                                *)
(* ===================================================================== *)

Lemma iterrows_from_lookup i rs (k : nat) r :
  rs !! k = Some r -> iterrows_from i rs !! k = Some (i + Z.of_nat k, r).
Proof.
  revert i k. induction rs as [|r' rs IH]; intros i [|k]; try done.
  - intros [= ->]. cbn. do 2 f_equal. lia.
  - intros H. change (iterrows_from (i + 1) rs !! k = Some (i + Z.of_nat (S k), r)).
    rewrite (IH (i + 1) k H). do 2 f_equal. lia.
Qed.

Lemma iterrows_lookup d (k : nat) r :
  rows d !! k = Some r -> iterrows d !! k = Some (Z.of_nat k, r).
Proof. intros H. unfold iterrows. by rewrite (iterrows_from_lookup 0 _ _ _ H). Qed.

(** X7.  The loop of the death markers adds one marker per death record,
    in record order, each at the resolved location of its record.  The
    record at position [i] (counting from 0) is numbered [i + 1] in the
    tooltip and in the popup, and the popup has a "Count" line exactly
    when the record has a [Count], showing that value. *)
Theorem death_marker_texts (d : GeoDataFrame) (m m' : Map) :
  add_skeletons (iterrows d) m = inr m' ->
  exists ss,
    children m' = children m ++ ss /\
    length ss = length (rows d) /\
    forall (i : nat) r,
      rows d !! i = Some r ->
      exists loc,
        lat_lon (row_geometry r) = inr loc /\
        ss !! i =
          Some (Marker loc
                  (Some ([Lit "<b>Cholera Death #"; Fmt (VInt (Z.of_nat i + 1));
                          Lit "</b>"]
                         ++ match row_attrs r !! "Count" with
                            | Some count => [Lit "<br>Count: "; Fmt count]
                            | None => []
                            end))
                  (DivIcon (20, 20) (10, 10) [Lit skeleton_html])
                  (Some [Lit "Cholera Death "; Fmt (VInt (Z.of_nat i + 1))])).
Proof.
  rewrite add_skeletons_mapM.
  intros (ss & Hss%mapM_inr & [= <-])%bind_inr.
  exists ss. split; [reflexivity|]. split.
  { apply Forall2_length in Hss. rewrite <- Hss. apply length_iterrows_from. }
  intros i r Hr%iterrows_lookup.
  destruct (Forall2_lookup_l _ _ _ _ _ Hss Hr) as (l & Hl & Hmk).
  apply skeleton_of_inr in Hmk as (lat & lon & Hloc & _ & _ & ->).
  exists (lat, lon). split; [exact Hloc|exact Hl].
Qed.

Lemma death_marker_texts_witness :
  exists m',
    add_skeletons (iterrows deaths_layer) blank_map = inr m' /\
    exists ss,
      children m' = children blank_map ++ ss /\
      length ss = length (rows deaths_layer) /\
      forall (i : nat) r,
        rows deaths_layer !! i = Some r ->
        exists loc,
          lat_lon (row_geometry r) = inr loc /\
          ss !! i =
            Some (Marker loc
                    (Some ([Lit "<b>Cholera Death #"; Fmt (VInt (Z.of_nat i + 1));
                            Lit "</b>"]
                           ++ match row_attrs r !! "Count" with
                              | Some count => [Lit "<br>Count: "; Fmt count]
                              | None => []
                              end))
                    (DivIcon (20, 20) (10, 10) [Lit skeleton_html])
                    (Some [Lit "Cholera Death "; Fmt (VInt (Z.of_nat i + 1))])).
Proof.
  eexists. split.
  - vm_compute. reflexivity.
  - apply (death_marker_texts deaths_layer). vm_compute. reflexivity.
Defined.

(** X8.  The loop of the pumps adds, per pump record and in record order,
    the pump's marker and, when labels are on, its label right behind it.
    Marker and label stand at the same resolved location and carry the
    same number, [i + 1] for the record at position [i]. *)
Theorem pump_marker_and_label (b : bool) (p : GeoDataFrame) (m m' : Map) :
  add_pumps b (iterrows p) m = inr m' ->
  exists gs,
    children m' = children m ++ concat gs /\
    length gs = length (rows p) /\
    forall (i : nat) r,
      rows p !! i = Some r ->
      exists loc,
        lat_lon (row_geometry r) = inr loc /\
        gs !! i =
          Some (Marker loc
                  (Some [Lit "<b>Water Pump #"; Fmt (VInt (Z.of_nat i + 1));
                         Lit "</b>"])
                  (Icon "green" "cog" "fa")
                  (Some [Lit "Water Pump "; Fmt (VInt (Z.of_nat i + 1))])
                :: if b
                   then [Marker loc None
                           (DivIcon (150, 36) (0, 0)
                              [Lit ("<div style=" +:+ dq +:+
                                    "font-size: 12pt; font-weight: bold; color: green; background-color: white; padding: 2px 5px; border: 1px solid green; border-radius: 3px;"
                                    +:+ dq +:+ ">Pump ");
                               Fmt (VInt (Z.of_nat i + 1));
                               Lit "</div>"])
                           None]
                   else []).
Proof.
  rewrite add_pumps_mapM.
  intros (gs & Hgs%mapM_inr & [= <-])%bind_inr.
  exists gs. split; [reflexivity|]. split.
  { apply Forall2_length in Hgs. rewrite <- Hgs. apply length_iterrows_from. }
  intros i r Hr%iterrows_lookup.
  destruct (Forall2_lookup_l _ _ _ _ _ Hgs Hr) as (g & Hg & Hmk).
  apply pump_layers_inr in Hmk as (lat & lon & Hloc & _ & _ & ->).
  exists (lat, lon). split; [exact Hloc|exact Hg].
Qed.

Lemma pump_marker_and_label_witness :
  exists m',
    add_pumps true (iterrows pumps_layer) blank_map = inr m' /\
    exists gs,
      children m' = children blank_map ++ concat gs /\
      length gs = length (rows pumps_layer).
Proof.
  eexists. split.
  - vm_compute. reflexivity.
  - destruct (pump_marker_and_label true pumps_layer blank_map _ eq_refl)
      as (gs & H1 & H2 & _).
    by exists gs.
Defined.

(** X9.  The density layer and the death markers agree: built from the
    same layer, the row of the density layer and the marker of the same
    record have the same location, and the weight of the row is the count
    the popup shows; for a record with no [Count] the weight is 1 while
    the popup shows no count. *)
Theorem heat_rows_match_markers (d : GeoDataFrame) (m m' : Map)
    (data : list (float * float * value)) :
  heat_data (iterrows d) = inr data ->
  add_skeletons (iterrows d) m = inr m' ->
  exists ss,
    children m' = children m ++ ss /\
    Forall2 (fun e l =>
               exists popup ic tooltip,
                 l = Marker (e.1.1, e.1.2) (Some popup) ic tooltip /\
                 (popup !! 3%nat = Some (Lit "<br>Count: ") /\
                  popup !! 4%nat = Some (Fmt e.2) \/
                  length popup = 3%nat /\ e.2 = VInt 1))
            data ss.
Proof.
  rewrite heat_data_mapM, add_skeletons_mapM.
  intros Hdata%mapM_inr (ss & Hss%mapM_inr & [= <-])%bind_inr.
  exists ss. split; [reflexivity|].
  revert Hdata Hss. generalize (iterrows d). intros its Hdata. revert ss.
  induction Hdata as [|ir e its data He _ IH]; intros ss Hss.
  - inversion Hss. constructor.
  - inversion Hss as [|? l ? ss' Hl Hss']; subst. constructor; [|by apply IH].
    apply heat_row_inr in He as (lat & lon & Hloc & ->).
    apply skeleton_of_inr in Hl as (lat' & lon' & Hloc' & _ & _ & ->).
    rewrite Hloc in Hloc'. injection Hloc' as <- <-.
    eexists _, _, _. split; [reflexivity|].
    unfold popup_text, weight. destruct (row_attrs ir.2 !! "Count"); cbn; auto.
Qed.

Lemma heat_rows_match_markers_witness :
  exists data m',
    heat_data (iterrows deaths_layer) = inr data /\
    add_skeletons (iterrows deaths_layer) blank_map = inr m' /\
    exists ss,
      children m' = children blank_map ++ ss /\
      Forall2 (fun e l =>
                 exists popup ic tooltip,
                   l = Marker (e.1.1, e.1.2) (Some popup) ic tooltip /\
                   (popup !! 3%nat = Some (Lit "<br>Count: ") /\
                    popup !! 4%nat = Some (Fmt e.2) \/
                    length popup = 3%nat /\ e.2 = VInt 1))
              data ss.
Proof.
  eexists _, _. split; [vm_compute; reflexivity|]. split; [vm_compute; reflexivity|].
  apply (heat_rows_match_markers deaths_layer); vm_compute; reflexivity.
Defined.

(* ===================================================================== *)
(** ** The other two toggles                                               *)
(* ===================================================================== *)

Lemma options_with_skeletons (s : session) (b : bool) :
  options_of (<["Show Skeleton Markers" := VBool b]> s) =
  Options (show_heatmap (options_of s)) b (show_pump_labels (options_of s))
          (heatmap_radius (options_of s)) (heatmap_blur (options_of s))
          (heatmap_opacity (options_of s)).
Proof.
  unfold options_of, checkbox_state, slider_state. cbn [show_heatmap
    show_pump_labels heatmap_radius heatmap_blur heatmap_opacity].
  rewrite lookup_insert_eq, !lookup_insert_ne by done. reflexivity.
Qed.

Lemma options_with_labels (s : session) (b : bool) :
  options_of (<["Show Pump Labels" := VBool b]> s) =
  Options (show_heatmap (options_of s)) (show_skeletons (options_of s)) b
          (heatmap_radius (options_of s)) (heatmap_blur (options_of s))
          (heatmap_opacity (options_of s)).
Proof.
  unfold options_of, checkbox_state, slider_state. cbn [show_heatmap
    show_skeletons heatmap_radius heatmap_blur heatmap_opacity].
  rewrite lookup_insert_eq, !lookup_insert_ne by done. reflexivity.
Qed.

Lemma filter_none {A} (P : A -> Prop) `{forall a, Decision (P a)} l :
  Forall (fun a => ~ P a) l -> filter P l = [].
Proof.
  induction 1 as [|a l Ha _ IH]; [done|]. by rewrite filter_cons_False.
Qed.

Lemma filter_concat {A} (P : A -> Prop) `{forall a, Decision (P a)} (ls : list (list A)) :
  filter P (concat ls) = concat (filter P <$> ls).
Proof.
  induction ls as [|l ls IH]; [done|]. cbn. by rewrite filter_app, IH.
Qed.

Lemma page_on_map f d p m :
  on_map f <$> (shown page_head ++ shown (sidebar_controls ∅)
                ++ body_page d p m ++ shown footer) =
  shown page_head ++ shown (sidebar_controls ∅) ++ body_page d p (f m)
  ++ shown footer.
Proof. reflexivity. Qed.

Lemma pump_groups_without_death_markers b its gs :
  mapM (pump_layers b) its = inr gs ->
  Forall (fun l => is_death_marker l = false) (concat gs).
Proof.
  intros [_ Hgs]%pump_layers_kinds. apply Forall_concat.
  eapply Forall_impl; [exact Hgs|].
  intros g (mk & Hmk & Hg). destruct b.
  - destruct Hg as (lb & Hlb & ->).
    repeat constructor.
    + by destruct mk as [|? [?|] [|] ?| |].
    + by destruct lb as [|? [?|] [|] ?| |].
  - subst g. repeat constructor. by destruct mk as [|? [?|] [|] ?| |].
Qed.

(** X10.  Take any loaded dataset and any selection of the other options.
    If the render with "Show Skeleton Markers" on completes, the render
    with it off completes too, and its page is the same page with exactly
    the death markers taken out of the map (one per death record); the
    density layer, the pumps and the control stay as they are. *)
Theorem skeleton_toggle (w : World) (s : session) (d p : GeoDataFrame) :
  outcome (load_data w) = inr (Some d, Some p) ->
  outcome (script w (<["Show Skeleton Markers" := VBool true]> s)) = inr tt ->
  outcome (script w (<["Show Skeleton Markers" := VBool false]> s)) = inr tt /\
  shown (script w (<["Show Skeleton Markers" := VBool false]> s)) =
    on_map (without_kind is_death_marker)
      <$> shown (script w (<["Show Skeleton Markers" := VBool true]> s)) /\
  exists m_on,
    maps (shown (script w (<["Show Skeleton Markers" := VBool true]> s))) = [m_on] /\
    count is_death_marker m_on = length (rows d) /\
    length (children (without_kind is_death_marker m_on)) =
      (length (children m_on) - length (rows d))%nat.
Proof.
  intros Hload%load_data_outcome Hdone.
  destruct (script_completed _ _ _ _ Hload Hdone) as (c & m & Hc & Hm & Hpage).
  rewrite Hpage. clear Hpage Hdone.
  rewrite (script_loaded _ _ _ _ Hload), Hc.
  rewrite options_with_skeletons in *.
  set (o := options_of s) in *.
  assert (Hm_on := Hm).
  apply compose_map_inr in Hm as (hs & ss & gs & Hloc & Hhs & Hss & Hgs & Hm).
  cbn [show_pump_labels] in Hgs.
  assert (Hhs' := Hhs). apply heat_layers_kinds in Hhs' as [Hheat _].
  assert (Hss' := Hss). apply skeleton_layers_kinds in Hss' as [Hdeath Hlen].
  cbn [show_skeletons] in Hlen.
  assert (Hpumps := pump_groups_without_death_markers _ _ _ Hgs).
  assert (Hfilter :
    filter (fun l => is_death_marker l = false)
      (hs ++ ss ++ concat gs ++ [LayerControl]) =
    hs ++ concat gs ++ [LayerControl]).
  { rewrite !filter_app.
    rewrite (filter_all _ hs), (filter_none _ ss), (filter_all _ (concat gs));
      [done|done| |].
    - eapply Forall_impl; [exact Hdeath|]. cbn. congruence.
    - eapply Forall_impl; [exact Hheat|]. by intros [|? [?|] [|] ?| |]. }
  assert (Hoff : compose_map d p c
            (Options (show_heatmap o) false (show_pump_labels o)
               (heatmap_radius o) (heatmap_blur o) (heatmap_opacity o))
          = inr (without_kind is_death_marker m)).
  { rewrite compose_map_layers, Hloc.
    change (heat_layers d (Options _ false _ _ _ _)) with
      (heat_layers d (Options (show_heatmap o) true (show_pump_labels o)
         (heatmap_radius o) (heatmap_blur o) (heatmap_opacity o))).
    unfold skeleton_layers. cbn [show_skeletons show_pump_labels].
    rewrite Hhs, Hgs. result_simpl.
    rewrite Hm at 2. unfold without_kind.
    cbn [location zoom_start tiles width height children].
    rewrite filter_cons_True by done. by rewrite Hfilter. }
  rewrite Hoff. split; [reflexivity|]. split; [by rewrite page_on_map|].
  exists m. split; [reflexivity|].
  destruct (compose_map_counts _ _ _ _ _ Hm_on) as (_ & Hcount & _).
  cbn [show_skeletons] in Hcount. split; [exact Hcount|].
  rewrite Hm. unfold without_kind. cbn [children].
  rewrite filter_cons_True by done. rewrite Hfilter.
  cbn [length]. rewrite !length_app, Hlen. lia.
Qed.

Lemma skeleton_toggle_witness :
  shown (script soho (<["Show Skeleton Markers" := VBool false]> ∅)) =
    on_map (without_kind is_death_marker)
      <$> shown (script soho (<["Show Skeleton Markers" := VBool true]> ∅)).
Proof.
  apply (skeleton_toggle soho ∅ deaths_layer pumps_layer); reflexivity.
Defined.

Lemma pump_layers_labels_off (its : list (Z * row)) (gs : list (list layer)) :
  mapM (pump_layers true) its = inr gs ->
  mapM (pump_layers false) its
    = inr (filter (fun l => is_pump_label l = false) <$> gs).
Proof.
  intros H%mapM_inr. apply mapM_inr.
  induction H as [|ir g its gs Hg _ IH]; [constructor|].
  cbn [fmap list_fmap]. constructor; [|exact IH].
  apply pump_layers_inr in Hg as (lat & lon & Hloc & Hlat & Hlon & ->).
  apply pump_layers_inr. exists lat, lon. by repeat split.
Qed.

Lemma no_labels_before_pumps d o hs ss :
  heat_layers d o = inr hs -> skeleton_layers d o = inr ss ->
  Forall (fun l => is_pump_label l = false) (hs ++ ss).
Proof.
  intros [Hhs _]%heat_layers_kinds [Hss _]%skeleton_layers_kinds.
  apply Forall_app. split.
  - eapply Forall_impl; [exact Hhs|]. by intros [|? [?|] [|] ?| |].
  - eapply Forall_impl; [exact Hss|]. by intros [|? [?|] [|] ?| |].
Qed.

(** X11.  Take any loaded dataset and any selection of the other options.
    If the render with "Show Pump Labels" on completes, the render with it
    off completes too, and its page is the same page with exactly the pump
    labels taken out of the map (one per pump record); every pump keeps
    its marker. *)
Theorem pump_label_toggle (w : World) (s : session) (d p : GeoDataFrame) :
  outcome (load_data w) = inr (Some d, Some p) ->
  outcome (script w (<["Show Pump Labels" := VBool true]> s)) = inr tt ->
  outcome (script w (<["Show Pump Labels" := VBool false]> s)) = inr tt /\
  shown (script w (<["Show Pump Labels" := VBool false]> s)) =
    on_map (without_kind is_pump_label)
      <$> shown (script w (<["Show Pump Labels" := VBool true]> s)) /\
  exists m_on,
    maps (shown (script w (<["Show Pump Labels" := VBool true]> s))) = [m_on] /\
    count is_pump_label m_on = length (rows p) /\
    count is_pump_marker (without_kind is_pump_label m_on) = length (rows p) /\
    count is_pump_label (without_kind is_pump_label m_on) = 0%nat.
Proof.
  intros Hload%load_data_outcome Hdone.
  destruct (script_completed _ _ _ _ Hload Hdone) as (c & m & Hc & Hm & Hpage).
  rewrite Hpage. clear Hpage Hdone.
  rewrite (script_loaded _ _ _ _ Hload), Hc.
  rewrite options_with_labels in *.
  set (o := options_of s) in *.
  assert (Hm_on := Hm).
  apply compose_map_inr in Hm as (hs & ss & gs & Hloc & Hhs & Hss & Hgs & Hm).
  cbn [show_pump_labels] in Hgs.
  assert (Hbefore := no_labels_before_pumps _ _ _ _ Hhs Hss).
  assert (Hgs_off := pump_layers_labels_off _ _ Hgs).
  assert (Hfilter :
    filter (fun l => is_pump_label l = false)
      (hs ++ ss ++ concat gs ++ [LayerControl]) =
    hs ++ ss ++ concat (filter (fun l => is_pump_label l = false) <$> gs)
    ++ [LayerControl]).
  { rewrite (app_assoc hs ss), filter_app, (filter_all _ (hs ++ ss)) by done.
    rewrite filter_app, filter_concat, <- app_assoc. done. }
  assert (Hoff : compose_map d p c
            (Options (show_heatmap o) (show_skeletons o) false
               (heatmap_radius o) (heatmap_blur o) (heatmap_opacity o))
          = inr (without_kind is_pump_label m)).
  { rewrite compose_map_layers, Hloc.
    change (heat_layers d (Options _ _ false _ _ _)) with
      (heat_layers d (Options (show_heatmap o) (show_skeletons o) true
         (heatmap_radius o) (heatmap_blur o) (heatmap_opacity o))).
    change (skeleton_layers d (Options _ _ false _ _ _)) with
      (skeleton_layers d (Options (show_heatmap o) (show_skeletons o) true
         (heatmap_radius o) (heatmap_blur o) (heatmap_opacity o))).
    cbn [show_pump_labels].
    rewrite Hhs, Hss, Hgs_off. result_simpl.
    rewrite Hm at 2. unfold without_kind.
    cbn [location zoom_start tiles width height children].
    rewrite filter_cons_True by done. by rewrite Hfilter. }
  rewrite Hoff. split; [reflexivity|]. split; [by rewrite page_on_map|].
  exists m. split; [reflexivity|].
  destruct (compose_map_counts _ _ _ _ _ Hm_on) as (_ & _ & _ & Hl_on).
  destruct (compose_map_counts _ _ _ _ _ Hoff) as (_ & _ & Hp_off & Hl_off).
  cbn [show_pump_labels] in *. done.
Qed.

Lemma pump_label_toggle_witness :
  shown (script soho (<["Show Pump Labels" := VBool false]> ∅)) =
    on_map (without_kind is_pump_label)
      <$> shown (script soho (<["Show Pump Labels" := VBool true]> ∅)).
Proof.
  apply (pump_label_toggle soho ∅ deaths_layer pumps_layer); reflexivity.
Defined.

(* ===================================================================== *)
(** ** The sliders                                                         *)
(* ===================================================================== *)

Lemma compose_map_sliders d p c (o o' : options) :
  show_heatmap o = show_heatmap o' ->
  show_skeletons o = show_skeletons o' ->
  show_pump_labels o = show_pump_labels o' ->
  match compose_map d p c o, compose_map d p c o' with
  | inl e, inl e' => e = e'
  | inr m, inr m' =>
      without_kind is_heatmap m = without_kind is_heatmap m' /\
      density_data m = density_data m' /\
      (show_heatmap o = false -> m = m')
  | _, _ => False
  end.
Proof.
  destruct o as [h k l r b a], o' as [h' k' l' r' b' a']. cbn.
  intros <- <- <-. rewrite !compose_map_layers.
  destruct (validate_location c) as [e|loc]; [done|]. result_simpl.
  unfold heat_layers, skeleton_layers, new_HeatMap.
  cbn [show_heatmap show_skeletons show_pump_labels heatmap_opacity
       heatmap_radius heatmap_blur].
  destruct h.
  - destruct (heat_data (iterrows d)) as [e|data]; [done|]. result_simpl.
    destruct (validate_heat_data data) as [e|data']; [done|]. result_simpl.
    destruct (if k then mapM skeleton_of (iterrows d) else inr []) as [e|ss];
      [done|]. result_simpl.
    destruct (mapM (pump_layers l) (iterrows p)) as [e|gs]; [done|]. result_simpl.
    split; [|split; [|done]].
    + unfold without_kind. cbn [location zoom_start tiles width height children app].
      rewrite !(filter_cons_True _ (TileLayer _)) by done.
      by rewrite !filter_cons_False by (cbn; congruence).
    + reflexivity.
  - result_simpl.
    destruct (if k then mapM skeleton_of (iterrows d) else inr []) as [e|ss];
      [done|]. result_simpl.
    by destruct (mapM (pump_layers l) (iterrows p)) as [e|gs].
Qed.

(** X12.  The three sliders reach nothing but the parameters of the
    density layer.  Two sessions that agree on the three checkboxes end
    the same way, and their pages are the same once the density layer is
    left out of the map; the rows of the density layer are the same too.
    With "Show Heatmap" off the two pages are equal outright. *)
Theorem sliders_touch_only_density (w : World) (s s' : session) :
  checkbox_state s "Show Heatmap" true = checkbox_state s' "Show Heatmap" true ->
  checkbox_state s "Show Skeleton Markers" true
    = checkbox_state s' "Show Skeleton Markers" true ->
  checkbox_state s "Show Pump Labels" true
    = checkbox_state s' "Show Pump Labels" true ->
  outcome (script w s) = outcome (script w s') /\
  on_map (without_kind is_heatmap) <$> shown (script w s)
    = on_map (without_kind is_heatmap) <$> shown (script w s') /\
  density_data <$> maps (shown (script w s))
    = density_data <$> maps (shown (script w s')) /\
  (checkbox_state s "Show Heatmap" true = false ->
   shown (script w s) = shown (script w s')).
Proof.
  intros Hh Hk Hl.
  destruct (try_load w) as [e|[d p]] eqn:Hload.
  { by rewrite !(script_load_failed _ _ _ Hload). }
  rewrite !(script_loaded _ _ _ _ Hload).
  destruct (center w d) as [e|c]; [done|].
  assert (H := compose_map_sliders d p c (options_of s) (options_of s') Hh Hk Hl).
  destruct (compose_map d p c (options_of s)) as [e|m],
           (compose_map d p c (options_of s')) as [e'|m']; try done.
  - by subst e'.
  - destruct H as (Hmap & Hdata & Hoff). cbn [shown outcome].
    split; [done|]. split; [by rewrite !page_on_map, Hmap|].
    split; [by rewrite !maps_completed; cbn; rewrite Hdata|].
    intros Hoff'%Hoff. by subst m'.
Qed.

Lemma sliders_touch_only_density_witness :
  on_map (without_kind is_heatmap)
    <$> shown (script soho {[ "Heatmap Radius" := VInt 30 ]})
  = on_map (without_kind is_heatmap)
    <$> shown (script soho {[ "Heatmap Blur" := VInt 5 ]}).
Proof.
  apply (sliders_touch_only_density soho
           {[ "Heatmap Radius" := VInt 30 ]} {[ "Heatmap Blur" := VInt 5 ]});
    reflexivity.
Defined.

(** The sample render with the radius slider at its upper bound differs
    from the default render. *)
Example sample_radius_matters :
  maps (shown (script soho {[ "Heatmap Radius" := VInt 30 ]}))
    <> maps (shown (script soho ∅)).
Proof. vm_compute. discriminate. Qed.

(* ===================================================================== *)
(** ** How many layers                                                     *)
(* ===================================================================== *)

Lemma length_pump_groups (b : bool) its gs :
  mapM (pump_layers b) its = inr gs ->
  length (concat gs) = ((if b then 2 else 1) * length its)%nat.
Proof.
  intros [Hn Hgs]%pump_layers_kinds. rewrite <- Hn. clear Hn.
  induction Hgs as [|g gs (mk & _ & Hg) _ IH]; cbn; [lia|].
  rewrite length_app, IH. destruct b.
  - destruct Hg as (lb & _ & ->). cbn. lia.
  - subst g. cbn. lia.
Qed.

(** X13.  In every completed render the map starts with the tile layer
    it is created with, has exactly one density layer when "Show Heatmap"
    is on and none otherwise, exactly one label per pump record when "Show
    Pump Labels" is on and none otherwise, and ends with the layer
    control; in all it has 1 + (0 or 1) + (0 or the number of death
    records) + (1 or 2) times the number of pump records + 1 layers. *)
Theorem layer_totals (w : World) (s : session) (d p : GeoDataFrame) :
  outcome (load_data w) = inr (Some d, Some p) ->
  outcome (script w s) = inr tt ->
  exists m,
    maps (shown (script w s)) = [m] /\
    head (children m) = Some (TileLayer "OpenStreetMap") /\
    count is_heatmap m
      = (if checkbox_state s "Show Heatmap" true then 1 else 0)%nat /\
    count is_pump_label m
      = (if checkbox_state s "Show Pump Labels" true then length (rows p) else 0)%nat /\
    last (children m) = Some LayerControl /\
    length (children m) =
      (1
       + (if checkbox_state s "Show Heatmap" true then 1 else 0)
       + (if checkbox_state s "Show Skeleton Markers" true
          then length (rows d) else 0)
       + (if checkbox_state s "Show Pump Labels" true then 2 else 1)
         * length (rows p)
       + 1)%nat.
Proof.
  intros Hload%load_data_outcome Hdone.
  destruct (script_completed _ _ _ _ Hload Hdone) as (c & m & Hc & Hm & ->).
  exists m. split; [apply maps_completed|].
  destruct (compose_map_counts _ _ _ _ _ Hm) as (Hh & _ & _ & Hl).
  apply compose_map_inr in Hm as (hs & ss & gs & _ & Hhs & Hss & Hgs & Hm).
  split; [by rewrite Hm|]. split; [exact Hh|]. split; [exact Hl|].
  apply heat_layers_kinds in Hhs as [_ Hhs].
  apply skeleton_layers_kinds in Hss as [_ Hss].
  apply length_pump_groups in Hgs. unfold iterrows in Hgs.
  rewrite length_iterrows_from in Hgs.
  rewrite Hm. cbn [children]. split.
  - change (?a :: ?l) with ([a] ++ l). by rewrite !app_assoc, last_snoc.
  - cbn [length]. rewrite !length_app, Hhs, Hss, Hgs. cbn. lia.
Qed.

Lemma layer_totals_witness :
  exists m,
    maps (shown (script soho ∅)) = [m] /\
    head (children m) = Some (TileLayer "OpenStreetMap") /\
    count is_heatmap m = 1%nat /\
    count is_pump_label m = 2%nat /\
    last (children m) = Some LayerControl /\
    length (children m) = (1 + 1 + 3 + 2 * 2 + 1)%nat.
Proof.
  exact (layer_totals soho ∅ deaths_layer pumps_layer eq_refl eq_refl).
Defined.

(* ===================================================================== *)
(** ** When a render completes                                             *)
(* ===================================================================== *)

Lemma heat_layers_plottable d o hs :
  heat_layers d o = inr hs -> show_heatmap o = true ->
  Forall plottable (rows d) /\ Forall weighable (rows d).
Proof.
  unfold heat_layers, new_HeatMap. intros H Hon. rewrite Hon in H.
  apply bind_inr in H as (data & Hdata & H).
  apply bind_inr in H as (h & H & _).
  apply bind_inr in H as (data' & [_ Hnum]%validate_heat_data_iff & _).
  rewrite heat_data_mapM in Hdata. apply mapM_inr in Hdata.
  apply Forall_and.
  apply (Forall_iterrows_from (fun r => plottable r /\ weighable r) 0).
  fold (iterrows d).
  revert Hnum. induction Hdata as [|ir e its data He _ IH]; intros Hnum.
  - constructor.
  - inversion Hnum as [|? ? (Hlat & Hlon & Hw & Hv) Hnum']; subst.
    constructor; [|by apply IH].
    apply heat_row_inr in He as (lat & lon & Hloc & ->). split.
    + by exists lat, lon.
    + by split.
Qed.

Lemma skeleton_layers_plottable d o ss :
  skeleton_layers d o = inr ss -> show_skeletons o = true ->
  Forall plottable (rows d).
Proof.
  unfold skeleton_layers. intros H Hon. rewrite Hon in H. apply mapM_inr in H.
  apply (Forall_iterrows_from _ 0). fold (iterrows d).
  eapply Forall2_Forall_l; [exact H|]. apply Forall_true.
  intros ir l (lat & lon & ? & ? & ? & _)%skeleton_of_inr.
  by exists lat, lon.
Qed.

Lemma pump_layers_plottable b p gs :
  mapM (pump_layers b) (iterrows p) = inr gs -> Forall plottable (rows p).
Proof.
  intros H%mapM_inr.
  apply (Forall_iterrows_from _ 0). fold (iterrows p).
  eapply Forall2_Forall_l; [exact H|]. apply Forall_true.
  intros ir l (lat & lon & ? & ? & ? & _)%pump_layers_inr.
  by exists lat, lon.
Qed.

(** A dataset the script renders whatever the options: the centre of the
    death records has no NaN, every record resolves to coordinates
    without NaN, and every death record's weight is a number. *)
Lemma renderable_completes w s d p c :
  try_load w = inr (d, p) ->
  center w d = inr c -> is_nan c.1 = false -> is_nan c.2 = false ->
  Forall plottable (rows d) -> Forall weighable (rows d) ->
  Forall plottable (rows p) ->
  outcome (script w s) = inr tt.
Proof.
  intros Hload Hc Hlat Hlon Hd Hw Hp.
  destruct (compose_map_completes d p c (options_of s)) as [m Hm]; try done.
  by rewrite (script_loaded _ s _ _ Hload), Hc, Hm.
Qed.

(** X14.  After a successful load the render completes exactly when the
    centre of the death records is computed and neither of its coordinates
    is NaN, every pump record resolves to coordinates without NaN, every
    death record does so and has a weight that is a number and not NaN if
    the heatmap is on, and every death record resolves so if the death
    markers are on.  With both of these off the death records are not
    resolved one by one at all. *)
Theorem render_completes_iff (w : World) (s : session) (d p : GeoDataFrame) :
  outcome (load_data w) = inr (Some d, Some p) ->
  outcome (script w s) = inr tt <->
  (exists c, center w d = inr c /\ is_nan c.1 = false /\ is_nan c.2 = false) /\
  (checkbox_state s "Show Heatmap" true = true ->
   Forall plottable (rows d) /\ Forall weighable (rows d)) /\
  (checkbox_state s "Show Skeleton Markers" true = true ->
   Forall plottable (rows d)) /\
  Forall plottable (rows p).
Proof.
  intros Hload%load_data_outcome. split.
  - intros Hdone.
    destruct (script_completed _ _ _ _ Hload Hdone) as (c & m & Hc & Hm & _).
    apply compose_map_inr in Hm as (hs & ss & gs & Hloc & Hhs & Hss & Hgs & _).
    apply validate_location_inr in Hloc as (_ & Hlat & Hlon).
    split; [by exists c|]. split; [|split].
    + intros Hon. by apply (heat_layers_plottable _ _ _ Hhs).
    + intros Hon. by apply (skeleton_layers_plottable _ _ _ Hss).
    + by apply (pump_layers_plottable _ _ _ Hgs).
  - intros ((c & Hc & Hlat & Hlon) & Hheat & Hskel & Hp).
    destruct (compose_map_completes d p c (options_of s)) as [m Hm]; try done.
    by rewrite (script_loaded _ s _ _ Hload), Hc, Hm.
Qed.

Lemma render_completes_iff_witness :
  outcome (script soho ∅) = inr tt <->
  (exists c, center soho deaths_layer = inr c /\
             is_nan c.1 = false /\ is_nan c.2 = false) /\
  (checkbox_state ∅ "Show Heatmap" true = true ->
   Forall plottable (rows deaths_layer) /\ Forall weighable (rows deaths_layer)) /\
  (checkbox_state ∅ "Show Skeleton Markers" true = true ->
   Forall plottable (rows deaths_layer)) /\
  Forall plottable (rows pumps_layer).
Proof.
  apply (render_completes_iff soho ∅ deaths_layer pumps_layer). reflexivity.
Defined.

(** X15.  Take a loaded dataset whose centre has no NaN, whose records all
    resolve to coordinates without NaN and whose death records all have a
    weight that is a number and not NaN.  The render completes and the
    statistics panel shows exactly two metrics, "Total Cholera Deaths"
    with the number of death records and "Water Pumps" with the number of
    pump records; a pumps layer with no record shows 0. *)
Theorem statistics_when_renderable (w : World) (s : session)
    (d p : GeoDataFrame) (c : float * float) :
  outcome (load_data w) = inr (Some d, Some p) ->
  center w d = inr c -> is_nan c.1 = false -> is_nan c.2 = false ->
  Forall plottable (rows d) -> Forall weighable (rows d) ->
  Forall plottable (rows p) ->
  outcome (script w s) = inr tt /\
  metrics (shown (script w s)) =
    [("Total Cholera Deaths", Z.of_nat (length (rows d)));
     ("Water Pumps", Z.of_nat (length (rows p)))].
Proof.
  intros Hload%load_data_outcome Hc Hlat Hlon Hd Hw Hp.
  assert (Hdone := renderable_completes w s d p c Hload Hc Hlat Hlon Hd Hw Hp).
  split; [exact Hdone|]. by apply statistics_panel_counts.
Qed.

Lemma statistics_when_renderable_witness :
  outcome (script no_pumps ∅) = inr tt /\
  metrics (shown (script no_pumps ∅)) =
    [("Total Cholera Deaths", 3); ("Water Pumps", 0)].
Proof.
  apply (statistics_when_renderable no_pumps ∅ deaths_layer
           (Gdf (Some "EPSG:4326") [])
           (Fin (2414689 # 46875), Fin (-206833 # 1500000))).
  - reflexivity.
  - vm_compute. reflexivity.
  - reflexivity.
  - reflexivity.
  - repeat constructor; eexists _, _; repeat split.
  - repeat constructor.
  - constructor.
Defined.

(** X16.  Take a loaded dataset whose centre has no NaN, whose records all
    resolve to coordinates without NaN and whose death records all have a
    weight that is a number and not NaN.  The render completes and shows
    one map, in which the death markers are as many as the death records
    when "Show Skeleton Markers" is on (and none when it is off), and the
    pump markers are as many as the pump records (they have no toggle;
    the labels are counted apart). *)
Theorem marker_counts_when_renderable (w : World) (s : session)
    (d p : GeoDataFrame) (c : float * float) :
  outcome (load_data w) = inr (Some d, Some p) ->
  center w d = inr c -> is_nan c.1 = false -> is_nan c.2 = false ->
  Forall plottable (rows d) -> Forall weighable (rows d) ->
  Forall plottable (rows p) ->
  exists m,
    outcome (script w s) = inr tt /\
    maps (shown (script w s)) = [m] /\
    (checkbox_state s "Show Skeleton Markers" true = true ->
     count is_death_marker m = length (rows d)) /\
    (checkbox_state s "Show Skeleton Markers" true = false ->
     count is_death_marker m = 0%nat) /\
    count is_pump_marker m = length (rows p).
Proof.
  intros Hload%load_data_outcome Hc Hlat Hlon Hd Hw Hp.
  assert (Hdone := renderable_completes w s d p c Hload Hc Hlat Hlon Hd Hw Hp).
  destruct (completed_marker_counts _ _ _ _ Hload Hdone) as (m & Hm & Hdeaths & Hpumps).
  exists m. do 2 (split; [done|]).
  repeat split; [intros Hon|intros Hoff|done]; by rewrite Hdeaths, ?Hon, ?Hoff.
Qed.

Lemma marker_counts_when_renderable_witness :
  exists m,
    outcome (script soho ∅) = inr tt /\
    maps (shown (script soho ∅)) = [m] /\
    (checkbox_state ∅ "Show Skeleton Markers" true = true ->
     count is_death_marker m = 3%nat) /\
    (checkbox_state ∅ "Show Skeleton Markers" true = false ->
     count is_death_marker m = 0%nat) /\
    count is_pump_marker m = 2%nat.
Proof.
  apply (marker_counts_when_renderable soho ∅ deaths_layer pumps_layer
           (Fin (2414689 # 46875), Fin (-206833 # 1500000))).
  - reflexivity.
  - vm_compute. reflexivity.
  - reflexivity.
  - reflexivity.
  - repeat constructor; eexists _, _; repeat split.
  - repeat constructor.
  - repeat constructor; eexists _, _; repeat split.
Defined.
